(** * turboseti_stream: the geometry, drift-index and data-loader layer

    A shallow embedding of [src/turboseti_stream/doppler_finder.py]:
    the constructor [DopplerFinder.__init__] (padded time-step count,
    observation header, search geometry, drift-index row), the
    [DataLoader] it builds, the class [Map], and
    [DopplerFinder._find_ET_common] with the entry points that call it,
    over a file system and with turbo_seti's writers and search as
    parameters.

    Python [int] is [Z]; Python [float] and [numpy.float64] are the
    kernel's binary64 [float]; an exception is a [Raise] result. *)

From Stdlib Require Import ZArith List String Ascii Bool Lia Floats.
From stdpp Require Import base option gmap strings.
Import ListNotations.

Local Open Scope Z_scope.

(** ** Python values and library calls the source relies on *)

Module Py.

(** The exceptions the modelled statements can raise. [OSError] stands
    for those of its subclasses that depend on the platform
    ([IsADirectoryError], [NotADirectoryError], [PermissionError]);
    [LibraryException] for whatever setigen and blimpy raise on a file
    they do not read, which the source lets through as it is. *)
Inductive exn : Set :=
| AssertionError
| FileNotFoundError
| IndexError
| OSError
| OverflowError
| TypeError
| ValueError
| ZeroDivisionError
| LibraryException.

Inductive result (A : Type) : Type :=
| Ok (a : A)
| Raise (e : exn).
Arguments Ok {A} a.
Arguments Raise {A} e.

Definition bind {A B : Type} (r : result A) (k : A -> result B) : result B :=
  match r with
  | Ok a => k a
  | Raise e => Raise e
  end.

Definition is_ok {A : Type} (r : result A) : bool :=
  match r with Ok _ => true | Raise _ => false end.

(** *** Integers and doubles *)

(** The double nearest to a positive integer [n], ties to even, given as
    the integer that double holds. This is the conversion numpy applies
    to an integer argument of a float ufunc; it is the identity up to
    [2^53]. *)
Definition f64_of_int (n : Z) : Z :=
  let e := Z.log2 n - 52 in
  if e <=? 0 then n
  else
    let q := n / 2 ^ e in
    let r := n mod 2 ^ e in
    let h := 2 ^ (e - 1) in
    (if (h <? r) || ((r =? h) && Z.odd q) then q + 1 else q) * 2 ^ e.

(** What [np.log2] returns, as far as [math.ceil] and [int] look at it:
    minus infinity, not-a-number, or a finite logarithm [L >= 0] given by
    its integer part [k] and whether [L = k]. The logarithm of a double
    that is not a power of two lies strictly between two integers and is
    recorded as such. For arguments up to [2^48] that is what a [log2]
    accurate to one unit in the last place returns; above, a logarithm
    just over an integer may be rounded onto it, which is not modelled:
    nothing below is stated for an argument above [2^48] unless its
    double is a power of two, whose logarithm is exact. *)
Inductive log2_value : Set :=
| Log2NegInf
| Log2NaN
| Log2Fin (k : Z) (exact : bool).

(** [np.log2(n)] at a Python int: the int becomes an [int64] or [uint64]
    array element (anything else is an object array, for which the ufunc
    has no loop), is cast to double, and the logarithm is taken. *)
Definition np_log2 (n : Z) : result log2_value :=
  if (n <? - 2 ^ 63) || (2 ^ 64 <=? n) then Raise TypeError
  else if n =? 0 then Ok Log2NegInf
  else if n <? 0 then Ok Log2NaN
  else
    let x := f64_of_int n in
    Ok (Log2Fin (Z.log2 x) (x =? 2 ^ Z.log2 x)).

(** [math.floor] of an int is that int. *)
Definition math_floor (n : Z) : Z := n.

Definition math_ceil (v : log2_value) : result Z :=
  match v with
  | Log2NegInf => Raise OverflowError
  | Log2NaN => Raise ValueError
  | Log2Fin k exact => Ok (if exact then k else k + 1)
  end.

(** [int(v)] truncates towards zero; the finite values here are not
    negative. *)
Definition int_of_log2 (v : log2_value) : result Z :=
  match v with
  | Log2NegInf => Raise OverflowError
  | Log2NaN => Raise ValueError
  | Log2Fin k _ => Ok k
  end.

(** [int(math.pow(2, c))]: the power is a double, exact below [2^1024]
    and an [OverflowError] from there on; a negative [c] gives a fraction
    that [int] truncates to 0, which is also what [2 ^ c] is in [Z]. *)
Definition int_math_pow2 (c : Z) : result Z :=
  if 1024 <=? c then Raise OverflowError else Ok (2 ^ c).

(** [a // b] on ints. *)
Definition floordiv (a b : Z) : result Z :=
  if b =? 0 then Raise ZeroDivisionError else Ok (a / b).

(** [int(a / 2)] on an int [a]: true division, then truncation towards
    zero. The quotient is exact for every [a] a double holds, which
    covers the powers of two the source divides. *)
Definition int_truediv2 (a : Z) : Z := Z.quot a 2.

(** [float(n)] as Python converts an int operand of a float operation:
    correctly rounded, [OverflowError] when out of range. *)
Definition float_of_int (n : Z) : result float :=
  match binary_normalize prec emax n 0 false with
  | S754_infinity _ => Raise OverflowError
  | sf => Ok (SF2Prim sf)
  end.

(** [x / n] with a float [x] and an int [n]. *)
Definition float_div_int (x : float) (n : Z) : result float :=
  bind (float_of_int n) (fun d =>
  if (d =? 0)%float then Raise ZeroDivisionError else Ok (x / d)%float).

(** [n * x] with an int [n] and a float [x]. *)
Definition int_mul_float (n : Z) (x : float) : result float :=
  bind (float_of_int n) (fun d => Ok (d * x)%float).

End Py.

Import Py.

Notation "'do' x <- r ; k" := (Py.bind r (fun x => k))
  (at level 10, x name, r at level 100, k at level 200).

(** *** Strings *)

Module PyStr.

(** The part of [s] after its last [sep], when [s] contains [sep]. *)
Fixpoint after_last (sep : ascii) (s : string) : option string :=
  match s with
  | EmptyString => None
  | String c r =>
    match after_last sep r with
    | Some t => Some t
    | None => if Ascii.eqb c sep then Some r else None
    end
  end.

(** [s.split(sep)[-1]] for a one-character [sep]. *)
Definition split_last (sep : ascii) (s : string) : string :=
  default s (after_last sep s).

(** [s.replace(old, new)] for a non-empty [old]: occurrences are taken
    left to right and do not overlap; [skip] counts the characters of a
    matched occurrence still to be dropped. *)
Fixpoint replace_from (old new : string) (skip : nat) (s : string) : string :=
  match s with
  | EmptyString => EmptyString
  | String c r =>
    match skip with
    | S k => replace_from old new k r
    | O =>
      if String.prefix old s
      then String.append new (replace_from old new (Nat.pred (String.length old)) r)
      else String c (replace_from old new O r)
    end
  end.

Definition replace (old new s : string) : string := replace_from old new O s.

(** [s.rstrip(c)] for a one-character [c]. *)
Fixpoint rstrip (c : ascii) (s : string) : string :=
  match s with
  | EmptyString => EmptyString
  | String a r =>
    match rstrip c r with
    | EmptyString => if Ascii.eqb a c then EmptyString else String a EmptyString
    | r' => String a r'
    end
  end.

End PyStr.

(** *** numpy arrays of ints *)

Module Np.

(** An integer array of at most two dimensions. *)
Inductive ndarray : Type :=
| Arr0 (x : Z)
| Arr1 (xs : list Z)
| Arr2 (rows : list (list Z)).

(** [np.array(np.genfromtxt(path, delimiter=' ', dtype=int))] on a file
    given by its data lines: lines of unequal width are a [ValueError],
    and dimensions of size one are squeezed away. *)
Definition genfromtxt (lines : list (list Z)) : result ndarray :=
  match lines with
  | [] => Ok (Arr1 [])
  | first :: rest =>
    if forallb (fun l => Nat.eqb (length l) (length first)) rest then
      match lines with
      | [[x]] => Ok (Arr0 x)
      | [row] => Ok (Arr1 row)
      | _ => if Nat.eqb (length first) 1 then Ok (Arr1 (concat lines))
             else Ok (Arr2 lines)
      end
    else Raise ValueError
  end.

(** Row [r] of a two-dimensional array: a negative index counts from the
    end, and an index outside [-rows, rows) is an [IndexError]. *)
Definition row (rows : list (list Z)) (r : Z) : result (list Z) :=
  let n := Z.of_nat (length rows) in
  let i := if r <? 0 then r + n else r in
  if (i <? 0) || (n <=? i) then Raise IndexError
  else
    match rows !! Z.to_nat i with
    | Some xs => Ok xs
    | None => Raise IndexError
    end.

(** The slice [xs[0:stop]]: a negative [stop] counts from the end, and
    the bounds are clipped to the length. *)
Definition slice0 (xs : list Z) (stop : Z) : list Z :=
  let n := Z.of_nat (length xs) in
  let s := if stop <? 0 then Z.max 0 (stop + n) else Z.min stop n in
  take (Z.to_nat s) xs.

(** [a[r, 0:stop]]; an array of fewer than two dimensions has too many
    indices. *)
Definition getitem_row_slice (a : ndarray) (r stop : Z) : result (list Z) :=
  match a with
  | Arr2 rows => do xs <- row rows r; Ok (slice0 xs stop)
  | _ => Raise IndexError
  end.

End Np.

(** *** Files *)

Module Os.

(** What a path names. Paths are told apart as they are written: the
    model does not know that [a//b] and [a/b] name one file. *)
Inductive node : Type :=
| File (text : string)
| Dir.

Abbreviation fs := (gmap string node).

(** The text before the last [sep] of [s], when [s] contains [sep]. *)
Fixpoint before_last (sep : ascii) (s : string) : option string :=
  match s with
  | EmptyString => None
  | String c r =>
    match before_last sep r with
    | Some t => Some (String c t)
    | None => if Ascii.eqb c sep then Some EmptyString else None
    end
  end.

(** The directory a path lies in: what stands before its last slash,
    the root when nothing does, the current directory when the path has
    no slash. *)
Definition parent (p : string) : string :=
  match before_last "/" p with
  | Some EmptyString => "/"
  | Some d => d
  | None => "."
  end.

(** [os.path.exists(p)] *)
Definition path_exists (p : string) (s : fs) : bool :=
  match s !! p with
  | Some _ => true
  | None => false
  end.

(** [os.remove(p)] *)
Definition remove (p : string) (s : fs) : result fs :=
  match s !! p with
  | Some (File _) => Ok (delete p s)
  | Some Dir => Raise OSError
  | None => Raise FileNotFoundError
  end.

(** [open(p, mode)] for writing, up to the point where the file can be
    written: [p] must not name a directory and must lie in one. *)
Definition open_for_writing (p : string) (s : fs) : result unit :=
  match s !! p with
  | Some Dir => Raise OSError
  | _ =>
    match s !! parent p with
    | Some Dir => Ok tt
    | Some (File _) => Raise OSError
    | None => Raise FileNotFoundError
    end
  end.

(** [with open(p, "w") as f: f.write(text)] *)
Definition write_text (p text : string) (s : fs) : result fs :=
  do _ <- open_for_writing p s;
  Ok (<[p := File text]> s).

(** The text of a file; none for a path that names no file. *)
Definition text_of (n : option node) : string :=
  match n with
  | Some (File text) => text
  | _ => EmptyString
  end.

(** [with open(p, "a") as f: f.write(text)] *)
Definition append_text (p text : string) (s : fs) : result fs :=
  do _ <- open_for_writing p s;
  Ok (<[p := File (String.append (text_of (s !! p)) text)]> s).

End Os.

(** ** class Map: the three dictionaries of the constructor, as records *)

Module Header.
Record t : Type := {
  coarse_chan : Z;
  obs_length : float;
  DELTAF : float;
  NAXIS1 : Z;
  FCNTR : float;
  baryv : Z;
  SOURCE : string;
  MJD : float;
  RA : float;
  DEC : float;
  DELTAT : float;
  max_drift_rate : float
}.
End Header.

Module DataDict.
Record t : Type := {
  f_start : float;
  f_stop : float;
  tsteps_valid : Z;
  tsteps : Z;
  tdwidth : Z;
  fftlen : Z;
  shoulder_size : Z;
  drift_rate_resolution : float;
  coarse_chan : Z;
  header : Header.t
}.
End DataDict.

(** [obs_info] and [kernels] are objects of turbo_seti and are left out. *)
Module FindDopplerInstance.
Record t : Type := {
  data_handle_filename : string;
  data_handle_header : Header.t;
  log_level_int : Z;
  min_drift : float;
  max_drift : float;
  out_dir : string;
  snr : float;
  status : bool;
  flagging : bool;
  append_output : bool;
  flag_blank_dc : bool;
  n_coarse_chan : Z
}.
End FindDopplerInstance.

(** ** class DataLoader *)

Module DataLoader.

(** A spectra matrix: rows are integrations, columns fine channels. *)
Definition matrix : Type := list (list float).

(** What [self.spectra] holds: the list the constructor puts there, or
    a loaded matrix. *)
Inductive spectra_t : Type :=
| PyList (xs : list Z)
| Matrix (m : matrix).

(** [len(spectra)] *)
Definition len (s : spectra_t) : nat :=
  match s with
  | PyList xs => length xs
  | Matrix m => length m
  end.

(** [np.size(spectra)]: the number of elements. *)
Definition size (s : spectra_t) : nat :=
  match s with
  | PyList xs => length xs
  | Matrix m => length (concat m)
  end.

Record t : Type := {
  drift_indices : list Z;
  data_obj : DataDict.t;
  spectra : spectra_t
}.

Definition __init__ (data_obj : DataDict.t) (drift_indices : list Z) : t :=
  {| drift_indices := drift_indices;
     data_obj := data_obj;
     spectra := PyList [0; 0] |}.

(** [load]: the matrix is stored as it comes (an array: the debug line
    reads its [shape]). *)
Definition load (self : t) (spectra : matrix) : t :=
  {| drift_indices := drift_indices self;
     data_obj := data_obj self;
     spectra := Matrix spectra |}.

(** [load_file]: [frames] gives, for each path setigen can read, the
    [data] of the frame it decodes; on another path [stg.Frame] raises,
    with an exception of setigen's or blimpy's choosing, and the loader
    is left as it was. *)
Definition load_file (frames : gmap string matrix) (self : t)
    (spectra_file_path : string) : result t :=
  match frames !! spectra_file_path with
  | Some data =>
    Ok {| drift_indices := drift_indices self;
          data_obj := data_obj self;
          spectra := Matrix data |}
  | None => Raise LibraryException
  end.

Definition get (self : t) : DataDict.t * spectra_t * list Z :=
  (data_obj self, spectra self, drift_indices self).

(** A load request, from either origin. *)
Inductive load_op : Type :=
| FromStream (spectra : matrix)
| FromFile (spectra_file_path : string).

(** The matrix a request delivers. *)
Definition delivered (frames : gmap string matrix) (op : load_op) : option matrix :=
  match op with
  | FromStream m => Some m
  | FromFile p => frames !! p
  end.

Definition apply_load (frames : gmap string matrix) (self : t) (op : load_op)
    : result t :=
  match op with
  | FromStream m => Ok (load self m)
  | FromFile p => load_file frames self p
  end.

(** Requests served one after the other; the first that raises stops
    the run. *)
Fixpoint run_loads (frames : gmap string matrix) (self : t) (ops : list load_op)
    : result t :=
  match ops with
  | [] => Ok self
  | op :: rest => do self' <- apply_load frames self op; run_loads frames self' rest
  end.

End DataLoader.

(** ** class DopplerFinder *)

Module DopplerFinder.

(** The constructor's arguments ([obs_info], [kernels], [gpu_backend],
    [precision] and [gpu_id] only reach turbo_seti's [Kernels] and are
    left out). *)
Record args : Type := {
  filename : string;
  source_name : string;
  src_raj : float;
  src_dej : float;
  tstart : float;
  tsamp : float;
  f_start : float;
  f_stop : float;
  n_fine_chans : Z;
  n_ints_in_file : Z;
  log_level_int : Z;
  coarse_chan_num : Z;
  n_coarse_chan : Z;
  min_drift : float;
  max_drift : float;
  snr : float;
  out_dir : string;
  flagging : bool;
  append_output : bool;
  blank_dc : bool
}.

(** Line 215:
    [int(math.pow(2, math.ceil(np.log2(math.floor(n_ints_in_file)))))] *)
Definition tsteps (n_ints_in_file : Z) : result Z :=
  do v <- np_log2 (math_floor n_ints_in_file);
  do c <- math_ceil v;
  int_math_pow2 c.

(** Lines 220-233: [self.header]. *)
Definition header (a : args) (fftlen : Z) : result Header.t :=
  do obs_length <- int_mul_float (n_ints_in_file a) (tsamp a);
  do DELTAF <- float_div_int (f_stop a - f_start a)%float (n_fine_chans a);
  do FCNTR <- float_div_int (f_stop a + f_start a)%float 2;
  Ok {| Header.coarse_chan := 0;
        Header.obs_length := obs_length;
        Header.DELTAF := DELTAF;
        Header.NAXIS1 := fftlen;
        Header.FCNTR := FCNTR;
        Header.baryv := 0;
        Header.SOURCE := source_name a;
        Header.MJD := tstart a;
        Header.RA := src_raj a;
        Header.DEC := src_dej a;
        Header.DELTAT := tsamp a;
        Header.max_drift_rate := max_drift a |}.

(** Lines 236-253: [self.find_doppler_instance]. *)
Definition find_doppler_instance (a : args) (h : Header.t) : FindDopplerInstance.t :=
  {| FindDopplerInstance.data_handle_filename := filename a;
     FindDopplerInstance.data_handle_header := h;
     FindDopplerInstance.log_level_int := log_level_int a;
     FindDopplerInstance.min_drift := min_drift a;
     FindDopplerInstance.max_drift := max_drift a;
     FindDopplerInstance.out_dir := out_dir a;
     FindDopplerInstance.snr := snr a;
     FindDopplerInstance.status := true;
     FindDopplerInstance.flagging := flagging a;
     FindDopplerInstance.append_output := append_output a;
     FindDopplerInstance.flag_blank_dc := blank_dc a;
     FindDopplerInstance.n_coarse_chan := n_coarse_chan a |}.

(** Lines 256-267: [self.data_dict]. The local [fftlen] of line 212 is
    [n_fine_chans]; the entry ["fftlen"] is computed afresh. *)
Definition data_dict (a : args) (h : Header.t)
    (fftlen shoulder_size tsteps_valid tsteps : Z) : result DataDict.t :=
  let tdwidth := fftlen + shoulder_size * tsteps in
  do fftlen_entry <- floordiv (n_fine_chans a) (n_coarse_chan a);
  Ok {| DataDict.f_start := f_start a;
        DataDict.f_stop := f_stop a;
        DataDict.tsteps_valid := tsteps_valid;
        DataDict.tsteps := tsteps;
        DataDict.tdwidth := tdwidth;
        DataDict.fftlen := fftlen_entry;
        DataDict.shoulder_size := shoulder_size;
        DataDict.drift_rate_resolution :=
          ((1000000 * PrimFloat.abs (Header.DELTAF h)) / Header.obs_length h)%float;
        DataDict.coarse_chan := coarse_chan_num a;
        DataDict.header := h |}.

(** The row offset of line 285. *)
Definition row_offset (tsteps tsteps_valid : Z) : Z :=
  tsteps_valid - 1 - int_truediv2 tsteps.

(** Lines 271-285: the drift-index vector, as a function of the two
    entries of [data_dict] it reads. [files] holds the data lines of
    each [drift_indexes/drift_indexes_array_<dia_num>.txt] turbo_seti
    ships, keyed by [dia_num]. *)
Definition drift_indexes (files : gmap Z (list (list Z))) (tsteps tsteps_valid : Z)
    : result (list Z) :=
  do v <- np_log2 tsteps;
  do dia_num <- int_of_log2 v;
  match files !! dia_num with
  | None => Raise AssertionError
  | Some lines =>
    do di_array <- Np.genfromtxt lines;
    Np.getitem_row_slice di_array (row_offset tsteps tsteps_valid) tsteps_valid
  end.

Record t : Type := {
  self_filename : string;
  self_out_dir : string;
  self_header : Header.t;
  self_find_doppler_instance : FindDopplerInstance.t;
  self_data_dict : DataDict.t;
  self_dataloader : DataLoader.t
}.

(** [DopplerFinder.__init__], statement by statement. *)
Definition __init__ (files : gmap Z (list (list Z))) (a : args) : result t :=
  let fftlen := n_fine_chans a in
  let shoulder_size := 0 in
  let tsteps_valid := n_ints_in_file a in
  do tsteps <- tsteps (n_ints_in_file a);
  do h <- header a fftlen;
  let fdi := find_doppler_instance a h in
  do dd <- data_dict a h fftlen shoulder_size tsteps_valid tsteps;
  do di <- drift_indexes files (DataDict.tsteps dd) (DataDict.tsteps_valid dd);
  Ok {| self_filename := filename a;
        self_out_dir := out_dir a;
        self_header := h;
        self_find_doppler_instance := fdi;
        self_data_dict := dd;
        self_dataloader := DataLoader.__init__ dd di |}.

(** *** Output files of a search *)

(** Line 292: the input file's name without directories and without
    [.h5] and [.fil]. *)
Definition wfilename (self : t) : string :=
  PyStr.replace ".fil" "" (PyStr.replace ".h5" "" (PyStr.split_last "/" (self_filename self))).

Definition path_log (self : t) : string :=
  String.append (PyStr.rstrip "/" (self_out_dir self))
    (String.append "/" (String.append (wfilename self) ".log")).

Definition path_dat (self : t) : string :=
  String.append (PyStr.rstrip "/" (self_out_dir self))
    (String.append "/" (String.append (wfilename self) ".dat")).

(** [if os.path.exists(p): os.remove(p)] *)
Definition remove_if_exists (p : string) (fs : Os.fs) : result Os.fs :=
  if Os.path_exists p fs then Os.remove p fs else Ok fs.

(** What the module takes from outside: the version banner, the text
    [format] prints for the two Maps, turbo_seti's [LogWriter],
    [FileWriter] and [search_coarse_channel] as what they do to the files
    (a writer is known to the search by the path it was built with), and
    the closing line with the elapsed time. *)
Record env : Type := {
  VERSION_ANNOUNCEMENTS : string;
  str_find_doppler_instance : FindDopplerInstance.t -> string;
  str_data_dict : DataDict.t -> string;
  LogWriter : string -> Os.fs -> result Os.fs;
  FileWriter : string -> Header.t -> Os.fs -> result Os.fs;
  search_coarse_channel :
    DataDict.t -> FindDopplerInstance.t -> DataLoader.t -> string -> string ->
    Os.fs -> result Os.fs;
  completed : string
}.

Definition newline : string := String "010"%char EmptyString.

(** Lines 300-302: what the three [fav.write] calls put into the log. *)
Definition preamble (e : env) (self : t) : string :=
  String.append (VERSION_ANNOUNCEMENTS e)
    (String.append "turboseti_stream find_doppler_instance: "
    (String.append (str_find_doppler_instance e (self_find_doppler_instance self))
    (String.append newline (String.append newline
    (String.append "turboseti_stream data_dict: "
    (String.append (str_data_dict e (self_data_dict self))
    (String.append newline newline))))))).

(** [_find_ET_common], statement by statement; the result is the file
    system it leaves. *)
Definition _find_ET_common (e : env) (self : t) (fs : Os.fs) : result Os.fs :=
  let path_log := path_log self in
  let path_dat := path_dat self in
  do fs <- remove_if_exists path_log fs;
  do fs <- remove_if_exists path_dat fs;
  do fs <- Os.write_text path_log (preamble e self) fs;
  do fs <- LogWriter e path_log fs;
  do fs <- FileWriter e path_dat (self_header self) fs;
  do fs <- search_coarse_channel e (self_data_dict self)
             (self_find_doppler_instance self) (self_dataloader self)
             path_log path_dat fs;
  Os.append_text path_log (completed e) fs.

Definition with_dataloader (self : t) (dl : DataLoader.t) : t :=
  {| self_filename := self_filename self;
     self_out_dir := self_out_dir self;
     self_header := self_header self;
     self_find_doppler_instance := self_find_doppler_instance self;
     self_data_dict := self_data_dict self;
     self_dataloader := dl |}.

(** [find_ET]: the finder as the call leaves it, and the files or the
    exception of the search. *)
Definition find_ET (e : env) (self : t) (spectra : DataLoader.matrix) (fs : Os.fs)
    : t * result Os.fs :=
  let self := with_dataloader self (DataLoader.load (self_dataloader self) spectra) in
  (self, _find_ET_common e self fs).

(** [find_ET_from_file] *)
Definition find_ET_from_file (e : env) (frames : gmap string DataLoader.matrix)
    (self : t) (spectra_file_path : string) (fs : Os.fs) : t * result Os.fs :=
  match DataLoader.load_file frames (self_dataloader self) spectra_file_path with
  | Raise x => (self, Raise x)
  | Ok dl =>
    let self := with_dataloader self dl in
    (self, _find_ET_common e self fs)
  end.

End DopplerFinder.

(** ** Predicates of the statements *)

(** [t] is the smallest power of two that is at least [n]. *)
Definition smallest_pow2_geq (n t : Z) : Prop :=
  (exists k, 0 <= k /\ t = 2 ^ k) /\
  n <= t /\
  forall j, 0 <= j -> n <= 2 ^ j -> t <= 2 ^ j.

(** [t] is the only power of two with [t / 2 < n <= t]. *)
Definition unique_pow2_bracket (n t : Z) : Prop :=
  (exists k, 0 <= k /\ t = 2 ^ k) /\
  t < 2 * n /\ n <= t /\
  forall j, 0 <= j -> 2 ^ j < 2 * n -> n <= 2 ^ j -> 2 ^ j = t.

(** ** Auxiliary readings of binary64 values *)

(** The sign bit is clear, or the value is not a number. *)
Definition sign_clear (x : spec_float) : bool :=
  match x with
  | S754_nan => true
  | S754_zero s | S754_infinity s | S754_finite s _ _ => negb s
  end.

(** The integer a finite, positive binary64 value holds (when it holds
    one), for comparing [Py.f64_of_int] with the kernel's conversion. *)
Definition sf_int_value (x : spec_float) : option Z :=
  match x with
  | S754_finite false m e =>
    if 0 <=? e then Some (Z.pos m * 2 ^ e)
    else if Z.pos m mod 2 ^ (- e) =? 0 then Some (Z.pos m / 2 ^ (- e)) else None
  | _ => None
  end.

(** ** Concrete inputs *)

Module Examples.

Import DopplerFinder.

(** A table of [rows] lines and [cols] columns; the entry of line [r]
    and column [c] is [100 r + c], so that rows can be told apart. *)
Definition example_lines (rows cols : nat) : list (list Z) :=
  map (fun r => map (fun c => Z.of_nat (100 * r + c)) (seq 0 cols)) (seq 0 rows).

(** Tables for 4 and for 16 time steps, of the shape turbo_seti ships:
    [tsteps / 2] lines of [tsteps] columns. *)
Definition example_files : gmap Z (list (list Z)) :=
  <[4 := example_lines 8 16]> (<[2 := example_lines 2 4]> ∅).

(** The table for 16 time steps cut to its first four lines. *)
Definition cut_files : gmap Z (list (list Z)) :=
  <[4 := example_lines 4 16]> ∅.

(** The end-to-end scenario of the specification: 1000.0 to 1000.001
    MHz ([0x1.f40020c49ba5ep+9] is the double Python reads 1000.001 as),
    1024 fine channels, 16 integrations of one second. *)
Definition example_args : args :=
  {| filename := "/data/obs/voyager.h5";
     source_name := "Voyager1";
     src_raj := 17;
     src_dej := 12;
     tstart := 59000;
     tsamp := 1;
     f_start := 1000;
     f_stop := 0x1.f40020c49ba5ep+9;
     n_fine_chans := 1024;
     n_ints_in_file := 16;
     log_level_int := 20;
     coarse_chan_num := 0;
     n_coarse_chan := 1;
     min_drift := 0x1.4f8b588e368f1p-17;
     max_drift := 4;
     snr := 25;
     out_dir := "./";
     flagging := false;
     append_output := false;
     blank_dc := true |}.

(** [a] with the arguments a scenario varies replaced. *)
Definition with_geometry (a : args)
    (f0 f1 dt : float) (nf ni nc : Z) (append : bool) : args :=
  {| filename := filename a;
     source_name := source_name a;
     src_raj := src_raj a;
     src_dej := src_dej a;
     tstart := tstart a;
     tsamp := dt;
     f_start := f0;
     f_stop := f1;
     n_fine_chans := nf;
     n_ints_in_file := ni;
     log_level_int := log_level_int a;
     coarse_chan_num := coarse_chan_num a;
     n_coarse_chan := nc;
     min_drift := min_drift a;
     max_drift := max_drift a;
     snr := snr a;
     out_dir := out_dir a;
     flagging := flagging a;
     append_output := append;
     blank_dc := blank_dc a |}.

(** Ten fine channels in three coarse channels. *)
Definition uneven_args : args :=
  with_geometry example_args 1000 0x1.f40020c49ba5ep+9 1 10 16 3 false.

(** 1024 fine channels in two coarse channels. *)
Definition two_coarse_args : args :=
  with_geometry example_args 1000 0x1.f40020c49ba5ep+9 1 1024 16 2 false.

(** One fine channel from 0 to the smallest positive double, four
    integrations of a million seconds. *)
Definition underflow_args : args :=
  with_geometry example_args 0 0x1p-1074 1000000 1 4 1 false.




Definition spectra_a : DataLoader.matrix := [[1; 2]; [3; 4]]%float.
Definition spectra_b : DataLoader.matrix := [[5; 6; 7]]%float.

Definition example_frames : gmap string DataLoader.matrix :=
  <["synth.h5" := spectra_b]> ∅.

End Examples.

(** ** class Map, as the class itself: a dict kept beside [__dict__] *)

Module Map.

Section Map.

(** The values a Map holds: Python objects that are data (numbers,
    strings, lists, dicts, other Maps, as the constructor of
    [DopplerFinder] stores them), so that calling one is a [TypeError]. *)
Variable V : Type.

(** Names the classes [Map], [dict] and [object] define. A data
    descriptor ([__dict__], [__class__]) is found before the instance's
    own attributes, any other class attribute (the methods of [dict])
    after them, and [__getattr__] is called last. *)
Variable data_attr : string -> bool.
Variable class_attr : string -> bool.

(** The dict's own entries, and the instance's [__dict__]. *)
Record t : Type := {
  entries : gmap string V;
  attrs : gmap string V
}.

(** [__setitem__]: [super().__setitem__(key, value)], then
    [self.__dict__.update({key: value})]. *)
Definition __setitem__ (self : t) (key : string) (value : V) : t :=
  {| entries := <[key := value]> (entries self);
     attrs := <[key := value]> (attrs self) |}.

(** [self.name] for a method [name] of [dict] or [Map], as the body of
    another method looks it up: the methods are no data descriptors, so
    an entry of [__dict__] under that name is found first, and what is
    then called is the value stored there. *)
Definition shadowed (self : t) (name : string) : bool :=
  match attrs self !! name with
  | Some _ => true
  | None => false
  end.

(** How a statement on a Map ends, with the object as it leaves it:
    normally, with a [KeyError], or with the [TypeError] of calling a
    stored value in place of the method it shadows. *)
Inductive outcome : Type :=
| Done (self : t)
| KeyError (self : t)
| NotCallable (self : t).

(** [__setattr__]: [self.__setitem__(key, value)] *)
Definition __setattr__ (self : t) (key : string) (value : V) : outcome :=
  if shadowed self "__setitem__" then NotCallable self
  else Done (__setitem__ self key value).

(** [__delitem__]: [super().__delitem__(key)] raises on a key the dict
    does not hold; [del self.__dict__[key]] comes after it and raises on
    a key [__dict__] does not hold, the dict's entry being gone by then. *)
Definition __delitem__ (self : t) (key : string) : outcome :=
  match entries self !! key with
  | None => KeyError self
  | Some _ =>
    match attrs self !! key with
    | None => KeyError {| entries := delete key (entries self); attrs := attrs self |}
    | Some _ =>
      Done {| entries := delete key (entries self); attrs := delete key (attrs self) |}
    end
  end.

(** [__delattr__]: [self.__delitem__(item)] *)
Definition __delattr__ (self : t) (item : string) : outcome :=
  if shadowed self "__delitem__" then NotCallable self
  else __delitem__ self item.

(** [__getattr__]: [self.get(attr)]; [None] is Python's [None]. *)
Definition __getattr__ (self : t) (attr : string) : result (option V) :=
  if shadowed self "get" then Raise TypeError
  else Ok (entries self !! attr).

(** [self[key]] as [dict] serves it; [None] stands for its [KeyError]. *)
Definition __getitem__ (self : t) (key : string) : option V :=
  entries self !! key.

(** What the expression [self.name] evaluates to. *)
Inductive attr_value : Type :=
| FromClass
| FromInstance (v : V)
| FromGetattr (v : option V)
| AttrRaises (e : exn).

Definition getattribute (self : t) (name : string) : attr_value :=
  if data_attr name then FromClass
  else
    match attrs self !! name with
    | Some v => FromInstance v
    | None =>
      if class_attr name then FromClass
      else
        match __getattr__ self name with
        | Ok v => FromGetattr v
        | Raise e => AttrRaises e
        end
    end.

(** A positional argument of the constructor: a dict, or another
    iterable of key-value pairs. *)
Inductive arg : Type :=
| ArgDict (d : gmap string V)
| ArgPairs (l : list (string * V)).

(** The dict [dict(arg)] builds: of pairs with one key the last counts. *)
Definition dict_of_arg (a : arg) : gmap string V :=
  match a with
  | ArgDict d => d
  | ArgPairs l => foldl (fun m kv => <[kv.1 := kv.2]> m) ∅ l
  end.

(** [for k, v in items: self[k] = v] *)
Definition set_items (self : t) (items : list (string * V)) : t :=
  foldl (fun s kv => __setitem__ s kv.1 kv.2) self items.

(** [Map.__init__] with positional arguments [args] and keywords
    [kwargs]: a keyword named [self] meets the first parameter and is a
    [TypeError]; [dict] takes one positional argument at most and lets a
    keyword replace its entry of the same name; the items of a dict
    argument, then the keywords, are set once more through the class's
    [__setitem__]. The items of a dict are taken in the order
    [map_to_list] gives them; their keys differ, so the order does not
    show. *)
Definition __init__ (args : list arg) (kwargs : gmap string V) : result t :=
  match kwargs !! "self" with
  | Some _ => Raise TypeError
  | None =>
    match args with
    | _ :: _ :: _ => Raise TypeError
    | _ =>
      let base := kwargs ∪ foldr (fun a m => dict_of_arg a ∪ m) ∅ args in
      let self := {| entries := base; attrs := ∅ |} in
      let self :=
        foldl (fun s a =>
                 match a with
                 | ArgDict d => set_items s (map_to_list d)
                 | ArgPairs _ => s
                 end) self args in
      Ok (set_items self (map_to_list kwargs))
    end
  end.

(** The dict and [__dict__] hold the same. *)
Definition synced (self : t) : Prop := entries self = attrs self.

(** Statements on a Map ([m[k] = v], [del m[k]], [m.k = v], [del m.k]),
    and a run of them that stops at the first that raises. *)
Inductive stmt : Type :=
| SetItem (key : string) (value : V)
| DelItem (key : string)
| SetAttr (key : string) (value : V)
| DelAttr (key : string).

Definition exec (self : t) (s : stmt) : outcome :=
  match s with
  | SetItem k v => Done (__setitem__ self k v)
  | DelItem k => __delitem__ self k
  | SetAttr k v => __setattr__ self k v
  | DelAttr k => __delattr__ self k
  end.

Fixpoint run (self : t) (stmts : list stmt) : outcome :=
  match stmts with
  | [] => Done self
  | s :: rest =>
    match exec self s with
    | Done self' => run self' rest
    | raised => raised
    end
  end.

End Map.

Arguments entries {V} _.
Arguments attrs {V} _.
Arguments Done {V} _.
Arguments KeyError {V} _.
Arguments NotCallable {V} _.
Arguments FromClass {V}.
Arguments FromInstance {V} _.
Arguments FromGetattr {V} _.
Arguments AttrRaises {V} _.
Arguments ArgDict {V} _.
Arguments ArgPairs {V} _.
Arguments SetItem {V} _ _.
Arguments DelItem {V} _.
Arguments SetAttr {V} _ _.
Arguments DelAttr {V} _.
Arguments __setitem__ {V} _ _ _.
Arguments shadowed {V} _ _.
Arguments __setattr__ {V} _ _ _.
Arguments __delitem__ {V} _ _.
Arguments __delattr__ {V} _ _.
Arguments __getattr__ {V} _ _.
Arguments __getitem__ {V} _ _.
Arguments getattribute {V} _ _ _ _.
Arguments dict_of_arg {V} _.
Arguments set_items {V} _ _.
Arguments __init__ {V} _ _.
Arguments synced {V} _.
Arguments exec {V} _ _.
Arguments run {V} _ _.

End Map.

(** ** Characters of a string *)

(** [c in s] for a one-character [c]. *)
Fixpoint str_contains (c : ascii) (s : string) : bool :=
  match s with
  | EmptyString => false
  | String a r => Ascii.eqb a c || str_contains c r
  end.

(** [c * n]: the character [c] repeated. *)
Fixpoint str_repeat (c : ascii) (n : nat) : string :=
  match n with
  | O => EmptyString
  | S n' => String c (str_repeat c n')
  end.

(** * Properties *)

(** ** The padded time-step count *)

Section Tsteps.

Import DopplerFinder.

Lemma f64_of_int_small n : 0 < n < 2 ^ 53 -> f64_of_int n = n.
Proof.
  intros Hn. unfold f64_of_int.
  assert (Z.log2 n < 53) by (apply Z.log2_lt_pow2; lia).
  destruct (Z.leb_spec (Z.log2 n - 52) 0); [reflexivity | lia].
Qed.

(** Up to [2^48] the count is [2^k] when [n_ints_in_file] is [2^k] and
    [2^(k+1)] when it lies strictly between [2^k] and [2^(k+1)]. *)
Lemma tsteps_exact n :
  1 <= n <= 2 ^ 48 ->
  tsteps n = Ok (if n =? 2 ^ Z.log2 n then 2 ^ Z.log2 n else 2 ^ (Z.log2 n + 1)).
Proof.
  intros Hn. unfold tsteps, math_floor, np_log2.
  assert (H63 : (n <? - 2 ^ 63) || (2 ^ 64 <=? n) = false).
  { apply orb_false_iff. split; [apply Z.ltb_ge | apply Z.leb_gt]; lia. }
  rewrite H63.
  destruct (Z.eqb_spec n 0); [lia|].
  destruct (Z.ltb_spec n 0); [lia|].
  rewrite f64_of_int_small by lia. cbn [bind math_ceil].
  assert (Z.log2 n < 53) by (apply Z.log2_lt_pow2; lia).
  pose proof (Z.log2_nonneg n).
  unfold int_math_pow2.
  destruct (n =? 2 ^ Z.log2 n).
  - destruct (Z.leb_spec 1024 (Z.log2 n)); [lia | reflexivity].
  - destruct (Z.leb_spec 1024 (Z.log2 n + 1)); [lia | reflexivity].
Qed.

Lemma tsteps_bracket n :
  1 <= n <= 2 ^ 48 ->
  exists k, 0 <= k /\ tsteps n = Ok (2 ^ k) /\ 2 ^ k < 2 * n /\ n <= 2 ^ k.
Proof.
  intros Hn. rewrite tsteps_exact by exact Hn.
  pose proof (Z.log2_nonneg n) as Hk.
  destruct (Z.log2_spec n ltac:(lia)) as [Hlo Hhi].
  replace (Z.succ (Z.log2 n)) with (Z.log2 n + 1) in Hhi by lia.
  destruct (Z.eqb_spec n (2 ^ Z.log2 n)) as [He | Hne].
  - exists (Z.log2 n). repeat split; lia.
  - exists (Z.log2 n + 1). rewrite Z.pow_add_r in * by lia.
    repeat split; lia.
Qed.

(** A power of two in [[n, 2n)] is below every power of two from [n] on. *)
Lemma pow2_bracket_least n k j :
  0 <= k -> 0 <= j -> 2 ^ k < 2 * n -> n <= 2 ^ j -> 2 ^ k <= 2 ^ j.
Proof.
  intros Hk Hj Hlt Hle.
  destruct (Z.le_gt_cases k j) as [|Hgt]; [apply Z.pow_le_mono_r; lia|].
  assert (2 ^ (j + 1) <= 2 ^ k) by (apply Z.pow_le_mono_r; lia).
  rewrite Z.pow_add_r in * by lia. lia.
Qed.

End Tsteps.

(** C1, as amended: for every [n_ints_in_file] from 1 to [2^48], [tsteps]
    is the smallest power of two that is at least [n_ints_in_file], and the
    only power of two [t] with [t / 2 < n_ints_in_file <= t]. *)
Theorem tsteps_smallest_power_of_two (n : Z) :
  1 <= n <= 2 ^ 48 ->
  exists t, DopplerFinder.tsteps n = Ok t /\
            smallest_pow2_geq n t /\ unique_pow2_bracket n t.
Proof.
  intros Hn.
  destruct (tsteps_bracket n ltac:(lia)) as (k & Hk & Ht & Hlt & Hle).
  exists (2 ^ k). split; [exact Ht|]. split.
  - split; [exists k; auto|]. split; [exact Hle|].
    intros j Hj Hnj. eapply pow2_bracket_least; eauto.
  - split; [exists k; auto|]. split; [exact Hlt|]. split; [exact Hle|].
    intros j Hj Hjlt Hnj. apply Z.le_antisymm.
    + eapply pow2_bracket_least; eauto.
    + eapply pow2_bracket_least; eauto.
Qed.

Lemma tsteps_smallest_power_of_two_witness :
  exists t, DopplerFinder.tsteps 2000 = Ok t /\
            smallest_pow2_geq 2000 t /\ unique_pow2_bracket 2000 t.
Proof.
  apply (tsteps_smallest_power_of_two 2000). lia.
Defined.

(** The two values the specification names. *)
Example tsteps_1 : DopplerFinder.tsteps 1 = Ok 1.
Proof. reflexivity. Qed.

Example tsteps_2000 : DopplerFinder.tsteps 2000 = Ok 2048.
Proof. reflexivity. Qed.

(** C1 as stated fails above [2^53]: [2^54 + 1] integrations become the
    double [2^54], whose logarithm is 54, so [tsteps] is [2^54], which is
    less than [n_ints_in_file]. *)
Lemma tsteps_below_n_ints_in_file :
  DopplerFinder.tsteps 18014398509481985 = Ok 18014398509481984 /\
  ~ smallest_pow2_geq 18014398509481985 18014398509481984.
Proof.
  split; [vm_compute; reflexivity|].
  intros (_ & Hle & _). lia.
Qed.

(** ** Signs of binary64 results *)


Section FloatSign.

Lemma binary_round_aux_sign mx ex lx :
  sign_clear (binary_round_aux prec emax false mx ex lx) = true.
Proof.
  unfold binary_round_aux.
  destruct (shr_fexp prec emax mx ex lx) as [mrs e'].
  destruct (shr_fexp prec emax _ e' loc_Exact) as [mrs' e''].
  destruct (shr_m mrs'); [reflexivity | | reflexivity].
  destruct (Z.leb e'' (emax - prec)); reflexivity.
Qed.

Lemma binary_round_sign mx ex :
  sign_clear (binary_round prec emax false mx ex) = true.
Proof.
  unfold binary_round.
  destruct (shl_align mx ex _) as [mz ez]. apply binary_round_aux_sign.
Qed.

Lemma binary_normalize_sign m e :
  0 <= m -> sign_clear (binary_normalize prec emax m e false) = true.
Proof.
  intros Hm. destruct m as [|p|p]; [reflexivity | apply binary_round_sign | lia].
Qed.

Lemma SFldexp_sign x e :
  sign_clear x = true -> sign_clear (SFldexp prec emax x e) = true.
Proof.
  destruct x as [s|s| |s m ex]; try (intros H; exact H).
  destruct s; [discriminate|]. intros _. apply binary_round_sign.
Qed.

Lemma SFabs_sign x : sign_clear (SFabs x) = true.
Proof. destruct x; reflexivity. Qed.

Lemma SF64mul_sign x y :
  sign_clear x = true -> sign_clear y = true -> sign_clear (SF64mul x y) = true.
Proof.
  destruct x as [[]|[]| |[] mx ex], y as [[]|[]| |[] my ey];
    try discriminate; try reflexivity.
  intros _ _. apply binary_round_aux_sign.
Qed.

Lemma SF64div_sign x y :
  sign_clear x = true -> sign_clear y = true -> sign_clear (SF64div x y) = true.
Proof.
  destruct x as [[]|[]| |[] mx ex], y as [[]|[]| |[] my ey];
    try discriminate; try reflexivity.
  intros _ _. unfold SF64div, SFdiv.
  destruct (SFdiv_core_binary prec emax (Z.pos mx) ex (Z.pos my) ey) as [[mz ez] lz].
  apply binary_round_aux_sign.
Qed.

Lemma of_uint63_sign n : sign_clear (Prim2SF (of_uint63 n)) = true.
Proof.
  rewrite of_uint63_spec. apply binary_normalize_sign.
  apply Uint63.to_Z_bounded.
Qed.

Lemma SF2Prim_sign x :
  sign_clear x = true -> sign_clear (Prim2SF (SF2Prim x)) = true.
Proof.
  destruct x as [[]|[]| |[] m e]; try discriminate; try (intros _; reflexivity).
  intros _. cbn [SF2Prim]. rewrite Z_ldexp_spec.
  apply SFldexp_sign, of_uint63_sign.
Qed.

Lemma sign_clear_not_negative x :
  sign_clear (Prim2SF x) = true -> (x <? 0)%float = false.
Proof.
  rewrite FloatAxioms.ltb_spec. change (Prim2SF 0) with (S754_zero false).
  destruct (Prim2SF x) as [[]|[]| |[] m e]; try discriminate; reflexivity.
Qed.

(** A value whose sign bit is clear is positive, a zero, or not a number. *)
Lemma sign_clear_cases x :
  sign_clear (Prim2SF x) = true ->
  (0 <? x)%float = true \/ (x =? 0)%float = true \/ is_nan x = true.
Proof.
  unfold is_nan. rewrite FloatAxioms.ltb_spec, !FloatAxioms.eqb_spec.
  change (Prim2SF 0) with (S754_zero false).
  destruct (Prim2SF x) as [[]|[]| |[] m e]; try discriminate; intros _.
  - right. left. reflexivity.
  - left. reflexivity.
  - right. right. reflexivity.
  - left. reflexivity.
Qed.

Lemma positive_sign_clear x :
  (0 <? x)%float = true -> sign_clear (Prim2SF x) = true.
Proof.
  rewrite FloatAxioms.ltb_spec. change (Prim2SF 0) with (S754_zero false).
  destruct (Prim2SF x) as [[]|[]| |[] m e]; try discriminate; reflexivity.
Qed.

Lemma float_of_int_sign n d :
  0 <= n -> float_of_int n = Ok d -> sign_clear (Prim2SF d) = true.
Proof.
  intros Hn. unfold float_of_int.
  pose proof (SF2Prim_sign _ (binary_normalize_sign n 0 Hn)) as Hs.
  destruct (binary_normalize prec emax n 0 false) as [s|s| |s m e];
    try discriminate; intros [= <-]; exact Hs.
Qed.

End FloatSign.

(** ** The drift-index vector *)

Section DriftIndexes.

Import DopplerFinder.

Lemma f64_of_int_pow2 k : 0 <= k -> f64_of_int (2 ^ k) = 2 ^ k.
Proof.
  intros Hk. unfold f64_of_int. rewrite Z.log2_pow2 by lia.
  destruct (Z.leb_spec (k - 52) 0) as [|He]; [reflexivity|].
  assert (Hh : 0 < 2 ^ (k - 52 - 1)) by (apply Z.pow_pos_nonneg; lia).
  assert (Hp : 0 < 2 ^ (k - 52)) by (apply Z.pow_pos_nonneg; lia).
  replace (2 ^ k) with (2 ^ 52 * 2 ^ (k - 52))
    by (rewrite <- Z.pow_add_r by lia; f_equal; lia).
  rewrite Z.div_mul, Z.mod_mul by lia.
  destruct (Z.ltb_spec (2 ^ (k - 52 - 1)) 0); [lia|].
  destruct (Z.eqb_spec 0 (2 ^ (k - 52 - 1))); [lia|].
  reflexivity.
Qed.

Lemma np_log2_pow2 k :
  0 <= k < 64 -> np_log2 (2 ^ k) = Ok (Log2Fin k true).
Proof.
  intros Hk. unfold np_log2.
  assert (0 < 2 ^ k) by (apply Z.pow_pos_nonneg; lia).
  assert (2 ^ k < 2 ^ 64) by (apply Z.pow_lt_mono_r; lia).
  assert (H63 : (2 ^ k <? - 2 ^ 63) || (2 ^ 64 <=? 2 ^ k) = false).
  { apply orb_false_iff. split; [apply Z.ltb_ge | apply Z.leb_gt]; lia. }
  rewrite H63.
  destruct (Z.eqb_spec (2 ^ k) 0); [lia|].
  destruct (Z.ltb_spec (2 ^ k) 0); [lia|].
  rewrite f64_of_int_pow2, Z.log2_pow2, Z.eqb_refl by lia. reflexivity.
Qed.

Lemma np_log2_pow2_large k : 64 <= k -> np_log2 (2 ^ k) = Raise TypeError.
Proof.
  intros Hk. unfold np_log2.
  assert (2 ^ 64 <= 2 ^ k) by (apply Z.pow_le_mono_r; lia).
  destruct (Z.leb_spec (2 ^ 64) (2 ^ k)); [|lia].
  rewrite orb_true_r. reflexivity.
Qed.

(** Two or more lines of one width, two or more columns each, load as
    the two-dimensional array of those lines. *)
Lemma genfromtxt_2d (l1 l2 : list Z) (rest : list (list Z)) :
  Forall (fun l => length l = length l1) (l2 :: rest) ->
  (2 <= length l1)%nat ->
  Np.genfromtxt (l1 :: l2 :: rest) = Ok (Np.Arr2 (l1 :: l2 :: rest)).
Proof.
  intros Hall Hw. unfold Np.genfromtxt.
  assert (Hb : forallb (fun l => Nat.eqb (length l) (length l1)) (l2 :: rest) = true).
  { apply forallb_forall. intros l Hl. apply Nat.eqb_eq.
    rewrite Forall_forall in Hall. apply Hall. apply list_elem_of_In. exact Hl. }
  rewrite Hb.
  destruct (Nat.eqb_spec (length l1) 1) as [H1|_]; [lia|].
  destruct l1 as [|x [|y l1]]; reflexivity.
Qed.

(** With the table of [2^k] present and two-dimensional, the vector is
    a row of it, cut by the slice. *)
Lemma drift_indexes_row (files : gmap Z (list (list Z))) k tv lines :
  0 <= k < 64 ->
  files !! k = Some lines ->
  Np.genfromtxt lines = Ok (Np.Arr2 lines) ->
  drift_indexes files (2 ^ k) tv =
  (do xs <- Np.row lines (row_offset (2 ^ k) tv); Ok (Np.slice0 xs tv)).
Proof.
  intros Hk Hf Hg. unfold drift_indexes.
  rewrite np_log2_pow2 by exact Hk. cbn [bind int_of_log2].
  rewrite Hf, Hg. reflexivity.
Qed.

Lemma row_in_range (rows : list (list Z)) r xs :
  0 <= r -> rows !! Z.to_nat r = Some xs -> Np.row rows r = Ok xs.
Proof.
  intros Hr Hx. unfold Np.row.
  pose proof (lookup_lt_Some _ _ _ Hx) as Hlt.
  destruct (Z.ltb_spec r 0); [lia|].
  destruct (Z.ltb_spec r 0); [lia|].
  destruct (Z.leb_spec (Z.of_nat (length rows)) r); [lia|].
  cbn [orb]. rewrite Hx. reflexivity.
Qed.


Lemma row_wraps (rows : list (list Z)) r :
  - Z.of_nat (length rows) <= r < 0 ->
  exists xs, rows !! Z.to_nat (r + Z.of_nat (length rows)) = Some xs /\
             Np.row rows r = Ok xs.
Proof.
  intros Hr. unfold Np.row.
  destruct (Z.ltb_spec r 0); [|lia].
  destruct (Z.ltb_spec (r + Z.of_nat (length rows)) 0); [lia|].
  destruct (Z.leb_spec (Z.of_nat (length rows)) (r + Z.of_nat (length rows))); [lia|].
  cbn [orb].
  destruct (lookup_lt_is_Some_2 rows (Z.to_nat (r + Z.of_nat (length rows))))
    as [xs Hx]; [lia|].
  exists xs. rewrite Hx. split; reflexivity.
Qed.

Lemma slice0_take (xs : list Z) stop :
  0 <= stop <= Z.of_nat (length xs) ->
  Np.slice0 xs stop = take (Z.to_nat stop) xs /\
  Z.of_nat (length (Np.slice0 xs stop)) = stop.
Proof.
  intros Hs. unfold Np.slice0.
  destruct (Z.ltb_spec stop 0); [lia|].
  rewrite Z.min_l by lia. split; [reflexivity|].
  rewrite length_take. lia.
Qed.

(** The slice never gives more than the row has. *)
Lemma slice0_length_clipped (xs : list Z) stop :
  0 <= stop ->
  Z.of_nat (length (Np.slice0 xs stop)) = Z.min stop (Z.of_nat (length xs)).
Proof.
  intros Hs. unfold Np.slice0.
  destruct (Z.ltb_spec stop 0); [lia|].
  rewrite length_take. lia.
Qed.

End DriftIndexes.

(** The offset of line 285 at a power of two, written out. *)
Lemma row_offset_pow2 k tv :
  0 <= k -> DopplerFinder.row_offset (2 ^ k) tv = tv - 1 - 2 ^ k / 2.
Proof.
  intros Hk. unfold DopplerFinder.row_offset, int_truediv2.
  assert (0 < 2 ^ k) by (apply Z.pow_pos_nonneg; lia).
  rewrite Z.quot_div_nonneg by lia. reflexivity.
Qed.

(** C2: for a pair [(tsteps, tsteps_valid)] with [tsteps = 2^k] whose table
    is present, two-dimensional, has a row at offset
    [tsteps_valid - 1 - tsteps/2] and at least [tsteps_valid] columns in
    it, the drift-index vector is exactly that row cut to its first
    [tsteps_valid] entries; its length is [tsteps_valid]; and it is the same
    for any set of files holding the same table for [k]. *)
Theorem drift_indexes_selects_row
    (files : gmap Z (list (list Z))) (k tsteps_valid : Z)
    (lines : list (list Z)) (xs : list Z) :
  0 <= k < 64 ->
  files !! k = Some lines ->
  Np.genfromtxt lines = Ok (Np.Arr2 lines) ->
  0 <= tsteps_valid - 1 - 2 ^ k / 2 ->
  lines !! Z.to_nat (tsteps_valid - 1 - 2 ^ k / 2) = Some xs ->
  1 <= tsteps_valid <= Z.of_nat (length xs) ->
  DopplerFinder.drift_indexes files (2 ^ k) tsteps_valid
    = Ok (take (Z.to_nat tsteps_valid) xs) /\
  Z.of_nat (length (take (Z.to_nat tsteps_valid) xs)) = tsteps_valid /\
  forall files' : gmap Z (list (list Z)),
    files' !! k = Some lines ->
    DopplerFinder.drift_indexes files' (2 ^ k) tsteps_valid
      = DopplerFinder.drift_indexes files (2 ^ k) tsteps_valid.
Proof.
  intros Hk Hf Hg Hoff Hx Htv.
  destruct (slice0_take xs tsteps_valid ltac:(lia)) as [Hs Hl].
  assert (Hrow : forall fs : gmap Z (list (list Z)), fs !! k = Some lines ->
            DopplerFinder.drift_indexes fs (2 ^ k) tsteps_valid
              = Ok (take (Z.to_nat tsteps_valid) xs)).
  { intros fs Hfs. rewrite (drift_indexes_row fs k _ lines) by assumption.
    rewrite row_offset_pow2 by lia.
    rewrite (row_in_range lines _ xs) by assumption.
    cbn [bind]. rewrite Hs. reflexivity. }
  split; [apply Hrow; exact Hf|]. split; [rewrite <- Hs; exact Hl|].
  intros files' Hf'. rewrite !Hrow by assumption. reflexivity.
Qed.

Lemma drift_indexes_selects_row_witness :
  DopplerFinder.drift_indexes Examples.example_files (2 ^ 4) 16
    = Ok (take (Z.to_nat 16) (map (fun c => Z.of_nat (100 * 7 + c)) (seq 0 16))).
Proof.
  destruct (drift_indexes_selects_row Examples.example_files 4 16
              (Examples.example_lines 8 16)
              (map (fun c => Z.of_nat (100 * 7 + c)) (seq 0 16))) as [H _].
  - lia.
  - reflexivity.
  - reflexivity.
  - vm_compute. discriminate.
  - reflexivity.
  - cbn. lia.
  - exact H.
Defined.

(** C7: when the files hold no table for [k = log2 tsteps], the drift-index
    vector is not computed: the statement raises, and for every [tsteps]
    numpy takes the logarithm of ([k < 64]) what it raises is the
    [AssertionError] of line 277. *)
Theorem drift_indexes_missing_table
    (files : gmap Z (list (list Z))) (k tsteps_valid : Z) :
  0 <= k ->
  files !! k = None ->
  exists e, DopplerFinder.drift_indexes files (2 ^ k) tsteps_valid = Raise e /\
            (k < 64 -> e = AssertionError).
Proof.
  intros Hk Hf. unfold DopplerFinder.drift_indexes.
  destruct (Z.lt_ge_cases k 64) as [Hlt | Hge].
  - rewrite np_log2_pow2 by lia. cbn [bind int_of_log2]. rewrite Hf.
    exists AssertionError. split; [reflexivity | auto].
  - rewrite np_log2_pow2_large by lia. cbn [bind].
    exists TypeError. split; [reflexivity | lia].
Qed.

Lemma drift_indexes_missing_table_witness :
  exists e, DopplerFinder.drift_indexes Examples.example_files (2 ^ 3) 5 = Raise e /\
            (3 < 64 -> e = AssertionError).
Proof.
  apply (drift_indexes_missing_table Examples.example_files 3 5).
  - lia.
  - reflexivity.
Defined.

(** A count the files have no table for stops the constructor. *)
Example init_missing_table :
  DopplerFinder.__init__ Examples.example_files
    (Examples.with_geometry Examples.example_args 1000 0x1.f40020c49ba5ep+9 1 1024 2000 1 false)
  = Raise AssertionError.
Proof. vm_compute. reflexivity. Qed.

(** [Py.f64_of_int] against the kernel's conversion of an integer to
    binary64, on integers a double holds and on integers it rounds. *)
Example f64_of_int_kernel :
  map (fun n => sf_int_value (Prim2SF (of_uint63 (Uint63.of_Z n))))
      [1; 3; 2000; 2 ^ 53 + 1; 2 ^ 53 + 3; 2 ^ 54 + 1; 2 ^ 60 + 2 ^ 7;
       2 ^ 60 + 3 * 2 ^ 7; 2 ^ 62 + 2 ^ 9 + 1]
  = map (fun n => Some (f64_of_int n))
      [1; 3; 2000; 2 ^ 53 + 1; 2 ^ 53 + 3; 2 ^ 54 + 1; 2 ^ 60 + 2 ^ 7;
       2 ^ 60 + 3 * 2 ^ 7; 2 ^ 62 + 2 ^ 9 + 1].
Proof. vm_compute. reflexivity. Qed.

(** [Py.float_of_int] against the kernel's conversion. *)
Example float_of_int_kernel :
  map float_of_int [0; 1; 2; 16; 1024; 2 ^ 53 + 1; 2 ^ 62 + 2 ^ 9 + 1]
  = map (fun n => Ok (of_uint63 (Uint63.of_Z n)))
      [0; 1; 2; 16; 1024; 2 ^ 53 + 1; 2 ^ 62 + 2 ^ 9 + 1].
Proof. vm_compute. reflexivity. Qed.

(** In the constructor the offset is never negative, and it stays below
    half the padded count. *)
Lemma init_row_offset_range n ts :
  1 <= n <= 2 ^ 48 ->
  DopplerFinder.tsteps n = Ok ts ->
  0 <= DopplerFinder.row_offset ts n /\
  (2 <= ts -> DopplerFinder.row_offset ts n < ts / 2).
Proof.
  intros Hn Hts.
  destruct (tsteps_bracket n Hn) as (k & Hk & Ht & Hlt & Hle).
  rewrite Ht in Hts. injection Hts as <-.
  assert (Hp : 0 < 2 ^ k) by (apply Z.pow_pos_nonneg; lia).
  unfold DopplerFinder.row_offset, int_truediv2.
  rewrite Z.quot_div_nonneg by lia.
  pose proof (Z.mul_div_le (2 ^ k) 2 ltac:(lia)).
  split; [lia|]. intros H2.
  destruct (Z.eq_dec k 0) as [->|]; [cbn in H2; lia|].
  replace (2 ^ k) with (2 * 2 ^ (k - 1)) in *
    by (rewrite <- Z.pow_succ_r by lia; f_equal; lia).
  rewrite (Z.mul_comm 2), Z.div_mul in * by lia. lia.
Qed.



(** The constructor on the table cut short. *)
Example init_cut_table :
  DopplerFinder.__init__ Examples.cut_files Examples.example_args = Raise IndexError.
Proof. vm_compute. reflexivity. Qed.

(** ** The constructor, step by step *)

Section Init.

Import DopplerFinder.

Lemma bind_Ok {A B : Type} (r : result A) (k : A -> result B) (b : B) :
  bind r k = Ok b -> exists a, r = Ok a /\ k a = Ok b.
Proof. destruct r as [a|e]; [eauto | discriminate]. Qed.

(** What a successful construction went through. *)
Lemma init_Ok (files : gmap Z (list (list Z))) a self :
  __init__ files a = Ok self ->
  exists ts h dd di,
    tsteps (n_ints_in_file a) = Ok ts /\
    header a (n_fine_chans a) = Ok h /\
    data_dict a h (n_fine_chans a) 0 (n_ints_in_file a) ts = Ok dd /\
    drift_indexes files (DataDict.tsteps dd) (DataDict.tsteps_valid dd) = Ok di /\
    self_header self = h /\
    self_data_dict self = dd /\
    self_find_doppler_instance self = find_doppler_instance a h /\
    self_dataloader self = DataLoader.__init__ dd di.
Proof.
  unfold __init__. intros H.
  apply bind_Ok in H as (ts & Hts & H).
  apply bind_Ok in H as (h & Hh & H).
  apply bind_Ok in H as (dd & Hdd & H).
  apply bind_Ok in H as (di & Hdi & H).
  injection H as <-. exists ts, h, dd, di. repeat split; assumption.
Qed.

Lemma header_Ok a fftlen h :
  header a fftlen = Ok h ->
  exists ni nf,
    float_of_int (n_ints_in_file a) = Ok ni /\
    float_of_int (n_fine_chans a) = Ok nf /\
    Header.obs_length h = (ni * tsamp a)%float /\
    Header.DELTAF h = ((f_stop a - f_start a) / nf)%float /\
    Header.FCNTR h = ((f_stop a + f_start a) / 2)%float /\
    Header.NAXIS1 h = fftlen.
Proof.
  unfold header, int_mul_float, float_div_int. intros H.
  apply bind_Ok in H as (ol & Hol & H).
  apply bind_Ok in Hol as (ni & Hni & Hol). injection Hol as <-.
  apply bind_Ok in H as (df & Hdf & H).
  apply bind_Ok in Hdf as (nf & Hnf & Hdf).
  destruct (nf =? 0)%float; [discriminate|]. injection Hdf as <-.
  apply bind_Ok in H as (fc & Hfc & H).
  change (float_of_int 2) with (Ok 2%float) in Hfc. cbn in Hfc.
  injection Hfc as <-. injection H as <-.
  exists ni, nf. repeat split; assumption.
Qed.

Lemma data_dict_Ok a h fftlen ss tv ts dd :
  data_dict a h fftlen ss tv ts = Ok dd ->
  n_coarse_chan a <> 0 /\
  DataDict.fftlen dd = n_fine_chans a / n_coarse_chan a /\
  DataDict.tdwidth dd = fftlen + ss * ts /\
  DataDict.shoulder_size dd = ss /\
  DataDict.tsteps dd = ts /\
  DataDict.tsteps_valid dd = tv /\
  DataDict.header dd = h /\
  DataDict.drift_rate_resolution dd =
    ((1000000 * PrimFloat.abs (Header.DELTAF h)) / Header.obs_length h)%float.
Proof.
  unfold data_dict, floordiv. intros H.
  destruct (Z.eqb_spec (n_coarse_chan a) 0) as [|Hnc]; [discriminate|].
  cbn [bind] in H. injection H as <-. cbn. repeat split; auto.
Qed.

(** A construction that gets as far as [np.log2] returning a finite
    value had at least one integration. *)
Lemma tsteps_Ok_pos n ts : tsteps n = Ok ts -> 1 <= n.
Proof.
  unfold tsteps, math_floor, np_log2.
  destruct ((n <? - 2 ^ 63) || (2 ^ 64 <=? n)); [discriminate|].
  destruct (Z.eqb_spec n 0); [discriminate|].
  destruct (Z.ltb_spec n 0); [discriminate|]. lia.
Qed.

End Init.

(** ** Channel layout *)

(** C3, as amended: a constructed finder has [n_coarse_chan <> 0] and
    [fftlen = n_fine_chans // n_coarse_chan]; the dictionary of lines
    256-267 is built whenever [n_coarse_chan] is not 0, divisible or not,
    and raises [ZeroDivisionError] when it is 0. *)
Theorem fftlen_floor_division (files : gmap Z (list (list Z))) (a : DopplerFinder.args) :
  (forall self, DopplerFinder.__init__ files a = Ok self ->
     DopplerFinder.n_coarse_chan a <> 0 /\
     DataDict.fftlen (DopplerFinder.self_data_dict self)
       = DopplerFinder.n_fine_chans a / DopplerFinder.n_coarse_chan a) /\
  (forall h fftlen ss tv ts, DopplerFinder.n_coarse_chan a <> 0 ->
     is_ok (DopplerFinder.data_dict a h fftlen ss tv ts) = true) /\
  (forall h fftlen ss tv ts, DopplerFinder.n_coarse_chan a = 0 ->
     DopplerFinder.data_dict a h fftlen ss tv ts = Raise ZeroDivisionError).
Proof.
  split; [|split].
  - intros self H.
    apply init_Ok in H as (ts & h & dd & di & _ & _ & Hdd & _ & _ & -> & _).
    apply data_dict_Ok in Hdd as (Hnc & Hff & _). auto.
  - intros h fftlen ss tv ts Hnc. unfold DopplerFinder.data_dict, floordiv.
    destruct (Z.eqb_spec (DopplerFinder.n_coarse_chan a) 0); [contradiction | reflexivity].
  - intros h fftlen ss tv ts Hnc. unfold DopplerFinder.data_dict, floordiv.
    rewrite Hnc. reflexivity.
Qed.

(** C3 as stated fails: ten fine channels in three coarse channels are
    not evenly divisible, and the constructor returns a finder whose
    [fftlen] is 3. *)
Lemma fftlen_truncates_without_error :
  10 mod 3 <> 0 /\
  exists self,
    DopplerFinder.__init__ Examples.example_files Examples.uneven_args = Ok self /\
    DataDict.fftlen (DopplerFinder.self_data_dict self) = 3.
Proof.
  split; [discriminate|].
  eexists. split; [vm_compute; reflexivity | reflexivity].
Qed.

(** The width of line 261 is the local [fftlen] of line 212, which is
    [n_fine_chans] whatever [n_coarse_chan] is. *)
Lemma tdwidth_is_n_fine_chans (files : gmap Z (list (list Z))) a self :
  DopplerFinder.__init__ files a = Ok self ->
  DataDict.shoulder_size (DopplerFinder.self_data_dict self) = 0 /\
  DataDict.tdwidth (DopplerFinder.self_data_dict self) = DopplerFinder.n_fine_chans a.
Proof.
  intros H.
  apply init_Ok in H as (ts & h & dd & di & _ & _ & Hdd & _ & _ & -> & _).
  apply data_dict_Ok in Hdd as (_ & _ & Htd & Hss & _). split; [exact Hss | lia].
Qed.

(** With a single coarse channel the width is [fftlen + shoulder_size * tsteps]. *)
Lemma tdwidth_one_coarse_chan (files : gmap Z (list (list Z))) a self :
  DopplerFinder.__init__ files a = Ok self ->
  DopplerFinder.n_coarse_chan a = 1 ->
  DataDict.tdwidth (DopplerFinder.self_data_dict self)
    = DataDict.fftlen (DopplerFinder.self_data_dict self)
      + DataDict.shoulder_size (DopplerFinder.self_data_dict self)
        * DataDict.tsteps (DopplerFinder.self_data_dict self).
Proof.
  intros H Hnc.
  apply init_Ok in H as (ts & h & dd & di & _ & _ & Hdd & _ & _ & -> & _).
  apply data_dict_Ok in Hdd as (_ & Hff & Htd & Hss & _).
  rewrite Htd, Hff, Hss, Hnc, Z.div_1_r. reflexivity.
Qed.

(** C4 at 1024 fine channels in two coarse channels: [tdwidth] is 1024
    while [fftlen + shoulder_size * tsteps] is 512. *)
Example tdwidth_two_coarse_chan :
  exists self,
    DopplerFinder.__init__ Examples.example_files Examples.two_coarse_args = Ok self /\
    DataDict.tdwidth (DopplerFinder.self_data_dict self) = 1024 /\
    DataDict.fftlen (DopplerFinder.self_data_dict self) = 512 /\
    DataDict.shoulder_size (DopplerFinder.self_data_dict self) = 0 /\
    DataDict.tsteps (DopplerFinder.self_data_dict self) = 16 /\
    DataDict.tdwidth (DopplerFinder.self_data_dict self)
      <> DataDict.fftlen (DopplerFinder.self_data_dict self)
         + DataDict.shoulder_size (DopplerFinder.self_data_dict self)
           * DataDict.tsteps (DopplerFinder.self_data_dict self).
Proof.
  eexists. split; [vm_compute; reflexivity|].
  repeat split; discriminate.
Qed.

(** ** Header and drift-rate resolution *)

(** C5, as amended: in a constructed finder [DELTAF], [FCNTR],
    [obs_length] and [drift_rate_resolution] are the stated quotients and
    products in double arithmetic, and with [tsamp > 0] the resolution is
    never negative. *)
Theorem header_and_resolution (files : gmap Z (list (list Z)))
    (a : DopplerFinder.args) (self : DopplerFinder.t) :
  DopplerFinder.__init__ files a = Ok self ->
  let h := DopplerFinder.self_header self in
  let dd := DopplerFinder.self_data_dict self in
  exists ni nf,
    float_of_int (DopplerFinder.n_ints_in_file a) = Ok ni /\
    float_of_int (DopplerFinder.n_fine_chans a) = Ok nf /\
    DataDict.header dd = h /\
    Header.obs_length h = (ni * DopplerFinder.tsamp a)%float /\
    Header.DELTAF h = ((DopplerFinder.f_stop a - DopplerFinder.f_start a) / nf)%float /\
    Header.FCNTR h = ((DopplerFinder.f_stop a + DopplerFinder.f_start a) / 2)%float /\
    DataDict.drift_rate_resolution dd
      = ((1000000 * PrimFloat.abs (Header.DELTAF h)) / Header.obs_length h)%float /\
    ((0 <? DopplerFinder.tsamp a)%float = true ->
     (DataDict.drift_rate_resolution dd <? 0)%float = false /\
     ((0 <? DataDict.drift_rate_resolution dd)%float = true \/
      (DataDict.drift_rate_resolution dd =? 0)%float = true \/
      is_nan (DataDict.drift_rate_resolution dd) = true)).
Proof.
  intros H h dd. subst h dd.
  apply init_Ok in H as (ts & h & dd & di & Hts & Hh & Hdd & _ & -> & -> & _).
  apply header_Ok in Hh as (ni & nf & Hni & Hnf & Hol & Hdf & Hfc & _).
  apply data_dict_Ok in Hdd as (_ & _ & _ & _ & _ & _ & Hhd & Hres).
  exists ni, nf.
  do 7 (split; [assumption|]).
  intros Hdt.
  assert (Hs : sign_clear (Prim2SF (DataDict.drift_rate_resolution dd)) = true).
  { rewrite Hres, div_spec, mul_spec, abs_spec, Hol, mul_spec.
    apply SF64div_sign.
    - apply SF64mul_sign; [reflexivity | apply SFabs_sign].
    - apply SF64mul_sign.
      + apply (float_of_int_sign (DopplerFinder.n_ints_in_file a)); [|exact Hni].
        apply tsteps_Ok_pos in Hts. lia.
      + apply positive_sign_clear, Hdt. }
  split; [apply sign_clear_not_negative | apply sign_clear_cases]; exact Hs.
Qed.

Lemma header_and_resolution_witness :
  exists self,
    DopplerFinder.__init__ Examples.example_files Examples.example_args = Ok self /\
    (DataDict.drift_rate_resolution (DopplerFinder.self_data_dict self) <? 0)%float = false.
Proof.
  assert (E : exists self,
    DopplerFinder.__init__ Examples.example_files Examples.example_args = Ok self)
    by (eexists; vm_compute; reflexivity).
  destruct E as [self E]. exists self. split; [exact E|].
  destruct (header_and_resolution _ _ _ E) as (ni & nf & _ & _ & _ & _ & _ & _ & _ & Hpos).
  apply Hpos. reflexivity.
Defined.

(** The scenario of the specification, evaluated. *)
Example scenario_geometry :
  exists self,
    DopplerFinder.__init__ Examples.example_files Examples.example_args = Ok self /\
    DataDict.tsteps (DopplerFinder.self_data_dict self) = 16 /\
    DataDict.fftlen (DopplerFinder.self_data_dict self) = 1024 /\
    Header.DELTAF (DopplerFinder.self_header self)
      = ((0x1.f40020c49ba5ep+9 - 1000) / 1024)%float /\
    DataDict.drift_rate_resolution (DopplerFinder.self_data_dict self)
      = (1000000 * PrimFloat.abs ((0x1.f40020c49ba5ep+9 - 1000) / 1024) / 16)%float /\
    (0 <? DataDict.drift_rate_resolution (DopplerFinder.self_data_dict self))%float = true /\
    length (DataLoader.drift_indices (DopplerFinder.self_dataloader self)) = 16%nat.
Proof.
  eexists. split; [vm_compute; reflexivity|]. repeat split.
Qed.

(** C5 as stated fails: with [f_start = 0], [f_stop] the smallest positive
    double, one fine channel and four integrations of a million seconds
    the input is valid and [DELTAF] is not zero, but the resolution
    [1e6 * |DELTAF| / 4e6] is a quarter of the smallest positive double
    and rounds to zero. *)
Lemma resolution_underflows_to_zero :
  (DopplerFinder.f_start Examples.underflow_args
     <? DopplerFinder.f_stop Examples.underflow_args)%float = true /\
  (0 <? DopplerFinder.tsamp Examples.underflow_args)%float = true /\
  0 < DopplerFinder.n_fine_chans Examples.underflow_args /\
  1 <= DopplerFinder.n_ints_in_file Examples.underflow_args /\
  1 <= DopplerFinder.n_coarse_chan Examples.underflow_args /\
  exists self,
    DopplerFinder.__init__ Examples.example_files Examples.underflow_args = Ok self /\
    (Header.DELTAF (DopplerFinder.self_header self) =? 0)%float = false /\
    (0 <? DataDict.drift_rate_resolution (DopplerFinder.self_data_dict self))%float = false.
Proof.
  split; [reflexivity|]. split; [reflexivity|].
  split; [cbn; lia|]. split; [cbn; lia|]. split; [cbn; lia|].
  eexists. split; [vm_compute; reflexivity|]. split; reflexivity.
Qed.

(** ** The data loader *)

Section Loader.

Import DataLoader.

Lemma apply_load_delivers (frames : gmap string matrix) self op m :
  delivered frames op = Some m ->
  exists self', apply_load frames self op = Ok self' /\
    spectra self' = Matrix m /\
    data_obj self' = data_obj self /\
    drift_indices self' = drift_indices self.
Proof.
  destruct op as [m' | p]; cbn [delivered apply_load].
  - intros [= ->]. eexists. repeat split.
  - intros Hp. unfold load_file. rewrite Hp. eexists. repeat split.
Qed.

(** A request that delivers nothing raises and changes nothing. *)
Lemma apply_load_fails (frames : gmap string matrix) self op :
  delivered frames op = None -> apply_load frames self op = Raise LibraryException.
Proof.
  destruct op as [m | p]; cbn [delivered apply_load]; [discriminate|].
  intros Hp. unfold load_file. rewrite Hp. reflexivity.
Qed.

Lemma run_loads_all_delivered (frames : gmap string matrix) ops : forall self,
  Forall (fun o => is_Some (delivered frames o)) ops ->
  exists self', run_loads frames self ops = Ok self' /\
    data_obj self' = data_obj self /\
    drift_indices self' = drift_indices self.
Proof.
  induction ops as [|op ops IH]; intros self Hall.
  - exists self. repeat split.
  - inversion Hall as [|? ? [m Hm] Hrest]; subst.
    destruct (apply_load_delivers frames self op m Hm) as (s1 & H1 & _ & Hd & Hi).
    destruct (IH s1 Hrest) as (s2 & H2 & Hd2 & Hi2).
    exists s2. cbn [run_loads]. rewrite H1. cbn [bind].
    repeat split; congruence.
Qed.

Lemma run_loads_app (frames : gmap string matrix) ops1 ops2 : forall self,
  run_loads frames self (ops1 ++ ops2)
  = (do self' <- run_loads frames self ops1; run_loads frames self' ops2).
Proof.
  induction ops1 as [|op ops1 IH]; intros self; [reflexivity|].
  cbn [app run_loads]. destruct (apply_load frames self op); [apply IH | reflexivity].
Qed.

End Loader.

(** C8: after any sequence of loads that each deliver a matrix, from the
    stream or from a file, [get] returns the matrix of the last load as it
    was delivered, with the configuration object and the drift-index
    vector the loader was built with. *)
Theorem get_returns_latest_load
    (frames : gmap string DataLoader.matrix) (self : DataLoader.t)
    (ops : list DataLoader.load_op) (op : DataLoader.load_op) (m : DataLoader.matrix) :
  Forall (fun o => is_Some (DataLoader.delivered frames o)) ops ->
  DataLoader.delivered frames op = Some m ->
  exists self',
    DataLoader.run_loads frames self (ops ++ [op]) = Ok self' /\
    DataLoader.get self'
      = (DataLoader.data_obj self, DataLoader.Matrix m, DataLoader.drift_indices self).
Proof.
  intros Hall Hm.
  destruct (run_loads_all_delivered frames ops self Hall) as (s1 & H1 & Hd1 & Hi1).
  destruct (apply_load_delivers frames s1 op m Hm) as (s2 & H2 & Hs2 & Hd2 & Hi2).
  exists s2. rewrite run_loads_app, H1. cbn [bind DataLoader.run_loads].
  rewrite H2. cbn [bind]. split; [reflexivity|].
  unfold DataLoader.get. rewrite Hs2, Hd2, Hi2, Hd1, Hi1. reflexivity.
Qed.

Lemma get_returns_latest_load_witness :
  exists self self',
    DopplerFinder.__init__ Examples.example_files Examples.example_args = Ok self /\
    DataLoader.run_loads Examples.example_frames (DopplerFinder.self_dataloader self)
      ([DataLoader.FromStream Examples.spectra_a] ++ [DataLoader.FromFile "synth.h5"])
      = Ok self' /\
    DataLoader.get self'
      = (DataLoader.data_obj (DopplerFinder.self_dataloader self),
         DataLoader.Matrix Examples.spectra_b,
         DataLoader.drift_indices (DopplerFinder.self_dataloader self)).
Proof.
  assert (E : exists self,
    DopplerFinder.__init__ Examples.example_files Examples.example_args = Ok self)
    by (eexists; vm_compute; reflexivity).
  destruct E as [self E]. exists self.
  destruct (get_returns_latest_load Examples.example_frames
              (DopplerFinder.self_dataloader self)
              [DataLoader.FromStream Examples.spectra_a]
              (DataLoader.FromFile "synth.h5") Examples.spectra_b) as (self' & Hrun & Hget).
  - repeat constructor. eexists. reflexivity.
  - reflexivity.
  - exists self'. split; [exact E|]. split; [exact Hrun | exact Hget].
Defined.

(** C10, as amended: a loader just built holds the list [[0, 0]] as its
    spectra, two entries that are both zero, with the configuration object
    and the drift-index vector it was given. *)
Theorem fresh_dataloader_placeholder (data_obj : DataDict.t) (drift_indices : list Z) :
  let self := DataLoader.__init__ data_obj drift_indices in
  DataLoader.spectra self = DataLoader.PyList [0; 0] /\
  DataLoader.len (DataLoader.spectra self) = 2%nat /\
  DataLoader.size (DataLoader.spectra self) = 2%nat /\
  DataLoader.get self = (data_obj, DataLoader.PyList [0; 0], drift_indices).
Proof. repeat split. Qed.

(** C10 as stated fails: the placeholder of a finder just constructed has
    two elements, not none. *)
Lemma fresh_dataloader_not_empty :
  exists self,
    DopplerFinder.__init__ Examples.example_files Examples.example_args = Ok self /\
    DataLoader.size (DataLoader.spectra (DopplerFinder.self_dataloader self)) <> 0%nat.
Proof.
  eexists. split; [vm_compute; reflexivity | discriminate].
Qed.


(** ** Output files *)

Section Output.

Import DopplerFinder.

Lemma append_inj_l (s a b : string) :
  String.append s a = String.append s b -> a = b.
Proof. induction s as [|c s IH]; cbn; [auto|]. intros [= H]. auto. Qed.

Lemma path_log_neq_path_dat (self : t) : path_log self <> path_dat self.
Proof.
  unfold path_log, path_dat. intros H.
  do 3 apply append_inj_l in H. discriminate.
Qed.



Lemma open_for_writing_missing (p : string) (fs : Os.fs) :
  fs !! Os.parent p = None -> fs !! p = None ->
  Os.open_for_writing p fs = Raise FileNotFoundError.
Proof.
  intros Hd Hp. unfold Os.open_for_writing. rewrite Hp, Hd. reflexivity.
Qed.

(** Appending leaves a file that ends with what was appended. *)
Lemma append_text_Ok (p text : string) (fs fs' : Os.fs) :
  Os.append_text p text fs = Ok fs' ->
  fs' = <[p := Os.File (String.append (Os.text_of (fs !! p)) text)]> fs.
Proof.
  unfold Os.append_text. destruct (Os.open_for_writing p fs); [|discriminate].
  cbn [bind]. intros [= <-]. reflexivity.
Qed.

End Output.




(** The paths of the scenario. *)
Example scenario_paths :
  exists self,
    DopplerFinder.__init__ Examples.example_files Examples.example_args = Ok self /\
    DopplerFinder.path_log self = "./voyager.log"%string /\
    DopplerFinder.path_dat self = "./voyager.dat"%string.
Proof. eexists. split; [vm_compute; reflexivity|]. split; reflexivity. Qed.

(** ** class Map *)

Section MapFacts.

Context {V : Type}.
Implicit Types (self : Map.t V) (d kwargs : gmap string V).

Lemma set_items_lookup (items : list (string * V)) : forall self k,
  NoDup items.*1 ->
  Map.entries (Map.set_items self items) !! k
    = from_option Some (Map.entries self !! k) ((list_to_map items : gmap string V) !! k) /\
  Map.attrs (Map.set_items self items) !! k
    = from_option Some (Map.attrs self !! k) ((list_to_map items : gmap string V) !! k).
Proof.
  induction items as [|[k0 v0] items IH]; intros self k Hnd.
  - cbn. rewrite lookup_empty. split; reflexivity.
  - rewrite fmap_cons in Hnd. apply NoDup_cons in Hnd as [Hk0 Hnd].
    cbn [fst] in Hk0.
    change (Map.set_items self ((k0, v0) :: items))
      with (Map.set_items (Map.__setitem__ self k0 v0) items).
    destruct (IH (Map.__setitem__ self k0 v0) k Hnd) as [He Ha].
    rewrite He, Ha, list_to_map_cons. cbn [Map.__setitem__ Map.entries Map.attrs fst snd].
    destruct (decide (k0 = k)) as [->|Hne].
    + rewrite !lookup_insert_eq.
      rewrite (not_elem_of_list_to_map_1 _ _ Hk0). split; reflexivity.
    + rewrite !lookup_insert_ne by exact Hne. split; reflexivity.
Qed.

Lemma set_items_map d self k :
  Map.entries (Map.set_items self (map_to_list d)) !! k
    = from_option Some (Map.entries self !! k) (d !! k) /\
  Map.attrs (Map.set_items self (map_to_list d)) !! k
    = from_option Some (Map.attrs self !! k) (d !! k).
Proof.
  destruct (set_items_lookup (map_to_list d) self k (NoDup_fst_map_to_list d)) as [He Ha].
  rewrite list_to_map_to_list in He, Ha. split; assumption.
Qed.

End MapFacts.

(** X1. A Map built from a dict [d] and keywords [kwargs] none of which
    is named [self], or from such keywords alone, holds every key of [d]
    and of [kwargs], a keyword counting over the dict's entry of the same
    name, in the dict and in [__dict__] alike; two or more positional
    arguments are a [TypeError], and so is a keyword named [self]. *)
Theorem Map_init_contents {V : Type} (d kwargs : gmap string V) :
  (kwargs !! "self" = None ->
   (exists m, Map.__init__ [Map.ArgDict d] kwargs = Ok m /\
      Map.synced m /\
      forall k, Map.entries m !! k = from_option Some (d !! k) (kwargs !! k)) /\
   (exists m, Map.__init__ [] kwargs = Ok m /\ Map.synced m /\ Map.entries m = kwargs)) /\
  (forall a1 a2 rest, Map.__init__ (a1 :: a2 :: rest) kwargs = Raise TypeError) /\
  (is_Some (kwargs !! "self") ->
   forall args, Map.__init__ args kwargs = Raise TypeError).
Proof.
  split; [|split].
  - intros Hself. split.
    + unfold Map.__init__. rewrite Hself.
      eexists. split; [reflexivity|]. cbn [foldl foldr Map.dict_of_arg].
      set (self0 := {| Map.entries := kwargs ∪ (d ∪ ∅); Map.attrs := ∅ |}).
      assert (He : forall k,
        Map.entries (Map.set_items (Map.set_items self0 (map_to_list d)) (map_to_list kwargs)) !! k
        = from_option Some (d !! k) (kwargs !! k)).
      { intros k.
        destruct (set_items_map kwargs (Map.set_items self0 (map_to_list d)) k) as [-> _].
        destruct (set_items_map d self0 k) as [-> _].
        subst self0. cbn [Map.entries].
        rewrite !lookup_union, lookup_empty.
        destruct (kwargs !! k), (d !! k); reflexivity. }
      assert (Ha : forall k,
        Map.attrs (Map.set_items (Map.set_items self0 (map_to_list d)) (map_to_list kwargs)) !! k
        = from_option Some (d !! k) (kwargs !! k)).
      { intros k.
        destruct (set_items_map kwargs (Map.set_items self0 (map_to_list d)) k) as [_ ->].
        destruct (set_items_map d self0 k) as [_ ->].
        subst self0. cbn [Map.attrs]. rewrite lookup_empty.
        destruct (kwargs !! k), (d !! k); reflexivity. }
      split; [|exact He].
      unfold Map.synced. apply map_eq. intros k. rewrite He, Ha. reflexivity.
    + unfold Map.__init__. rewrite Hself.
      eexists. split; [reflexivity|]. cbn [foldl foldr].
      set (self0 := {| Map.entries := kwargs ∪ ∅; Map.attrs := ∅ |}).
      assert (He : Map.entries (Map.set_items self0 (map_to_list kwargs)) = kwargs).
      { apply map_eq. intros k.
        destruct (set_items_map kwargs self0 k) as [-> _].
        subst self0. cbn [Map.entries]. rewrite lookup_union, lookup_empty.
        destruct (kwargs !! k); reflexivity. }
      split; [|exact He].
      unfold Map.synced. rewrite He. apply map_eq. intros k.
      destruct (set_items_map kwargs self0 k) as [_ ->].
      subst self0. cbn [Map.attrs]. rewrite lookup_empty.
      destruct (kwargs !! k); reflexivity.
  - intros a1 a2 rest. unfold Map.__init__. destruct (kwargs !! "self"); reflexivity.
  - intros [v Hv] args. unfold Map.__init__. rewrite Hv. reflexivity.
Qed.

Section MapRuns.

Context {V : Type}.

Lemma setitem_synced (m : Map.t V) k v :
  Map.synced m -> Map.synced (Map.__setitem__ m k v).
Proof. unfold Map.synced. cbn. intros ->. reflexivity. Qed.

Lemma delitem_synced (m : Map.t V) k :
  Map.synced m ->
  match Map.entries m !! k with
  | Some _ =>
    Map.__delitem__ m k
    = Map.Done {| Map.entries := delete k (Map.entries m);
                  Map.attrs := delete k (Map.attrs m) |}
  | None => Map.__delitem__ m k = Map.KeyError m
  end.
Proof.
  unfold Map.synced, Map.__delitem__. intros Hs. rewrite <- Hs.
  destruct (Map.entries m !! k); reflexivity.
Qed.

End MapRuns.

(** X2. On a Map whose dict and [__dict__] agree, any run of item and
    attribute assignments and deletions leaves them agreeing, also when
    the run stops at a [KeyError] or at the [TypeError] of a shadowed
    method: a statement that raises there has changed nothing. *)
Theorem Map_run_keeps_synced {V : Type} (stmts : list (Map.stmt V)) (m : Map.t V) :
  Map.synced m ->
  match Map.run m stmts with
  | Map.Done m' => Map.synced m'
  | Map.KeyError m' => Map.synced m'
  | Map.NotCallable m' => Map.synced m'
  end.
Proof.
  revert m. induction stmts as [|s stmts IH]; intros m Hs; [exact Hs|].
  cbn [Map.run].
  assert (He : match Map.exec m s with
               | Map.Done m' | Map.KeyError m' | Map.NotCallable m' => Map.synced m'
               end).
  { assert (Hdel : forall k, match Map.__delitem__ m k with
                 | Map.Done m' | Map.KeyError m' | Map.NotCallable m' => Map.synced m'
                 end).
    { intros k. pose proof (delitem_synced m k Hs) as Hd.
      destruct (Map.entries m !! k); rewrite Hd; [|exact Hs].
      unfold Map.synced in *. cbn. rewrite Hs. reflexivity. }
    destruct s as [k v | k | k v | k]; cbn [Map.exec].
    - apply setitem_synced, Hs.
    - apply Hdel.
    - unfold Map.__setattr__. destruct (Map.shadowed m "__setitem__");
        [exact Hs | apply setitem_synced, Hs].
    - unfold Map.__delattr__. destruct (Map.shadowed m "__delitem__");
        [exact Hs | apply Hdel]. }
  destruct (Map.exec m s) as [m' | m' | m']; [apply IH; exact He | exact He | exact He].
Qed.

Lemma Map_run_keeps_synced_witness :
  match Map.run {| Map.entries := {["a" := 1]}; Map.attrs := {["a" := 1]} |}
          [Map.SetItem "b"%string 2; Map.DelItem "a"%string;
           Map.SetAttr "__delitem__"%string 3; Map.DelAttr "b"%string] with
  | Map.Done m' => Map.synced m'
  | Map.KeyError m' => Map.synced m'
  | Map.NotCallable m' => Map.synced m'
  end.
Proof.
  apply (Map_run_keeps_synced
           [Map.SetItem "b"%string 2; Map.DelItem "a"%string;
            Map.SetAttr "__delitem__"%string 3; Map.DelAttr "b"%string]).
  reflexivity.
Defined.

(** X3. [m.k = v] is [m[k] = v] unless the Map holds a key
    [__setitem__], which makes every attribute assignment a [TypeError].
    After [m[k] = v] both [m[k]] and, for a name that is no data
    descriptor of the class, [m.k] give [v], and every other key reads
    as before; so does every other attribute unless [k] is [get]: a key
    [get] makes each read that reaches [__getattr__] a [TypeError]. *)
Theorem Map_setitem_read {V : Type} (data_attr class_attr : string -> bool)
    (m : Map.t V) (k : string) (v : V) :
  (Map.attrs m !! "__setitem__" = None ->
   Map.__setattr__ m k v = Map.Done (Map.__setitem__ m k v)) /\
  (is_Some (Map.attrs m !! "__setitem__") ->
   Map.__setattr__ m k v = Map.NotCallable m) /\
  Map.__getitem__ (Map.__setitem__ m k v) k = Some v /\
  (data_attr k = false ->
   Map.getattribute data_attr class_attr (Map.__setitem__ m k v) k = Map.FromInstance v) /\
  (forall k', k' <> k ->
     Map.__getitem__ (Map.__setitem__ m k v) k' = Map.__getitem__ m k' /\
     (k <> "get"%string ->
      Map.getattribute data_attr class_attr (Map.__setitem__ m k v) k'
        = Map.getattribute data_attr class_attr m k')) /\
  (k = "get"%string ->
   forall k', data_attr k' = false -> class_attr k' = false ->
     Map.attrs m !! k' = None -> k' <> k ->
     Map.getattribute data_attr class_attr (Map.__setitem__ m k v) k'
       = Map.AttrRaises TypeError).
Proof.
  unfold Map.__setattr__, Map.__getitem__, Map.getattribute, Map.__getattr__, Map.shadowed.
  cbn [Map.__setitem__ Map.entries Map.attrs].
  split; [intros ->; reflexivity|].
  split; [intros [w ->]; reflexivity|].
  split; [apply lookup_insert_eq|]. split; [|split].
  - intros ->. rewrite lookup_insert_eq. reflexivity.
  - intros k' Hne. rewrite !lookup_insert_ne by congruence.
    split; [reflexivity|]. intros Hget.
    rewrite (lookup_insert_ne _ k "get"%string) by exact Hget. reflexivity.
  - intros -> k' Hd Hc Ha Hne.
    rewrite Hd, Hc, lookup_insert_ne, Ha, lookup_insert_eq by congruence. reflexivity.
Qed.

(** X4. [del m.k] is [del m[k]] unless the Map holds a key [__delitem__],
    which makes every attribute deletion a [TypeError], whether the Map
    holds [k] or not. On a Map whose dict and [__dict__] agree, deleting
    a key it holds removes it from both: [m[k]] is then a [KeyError],
    other keys stay, and [m.k], for a name the class does not define, is
    [None], or a [TypeError] when the Map still holds a key [get];
    deleting a key it does not hold is a [KeyError] that leaves the Map as
    it was. *)
Theorem Map_delitem_read {V : Type} (data_attr class_attr : string -> bool)
    (m : Map.t V) (k : string) :
  Map.synced m ->
  (Map.attrs m !! "__delitem__" = None ->
   Map.__delattr__ m k = Map.__delitem__ m k) /\
  (is_Some (Map.attrs m !! "__delitem__") ->
   Map.__delattr__ m k = Map.NotCallable m) /\
  (forall v, Map.__getitem__ m k = Some v ->
     exists m', Map.__delitem__ m k = Map.Done m' /\
       Map.synced m' /\
       Map.__getitem__ m' k = None /\
       (data_attr k = false -> class_attr k = false ->
        Map.getattribute data_attr class_attr m' k
          = if Map.shadowed m' "get" then Map.AttrRaises TypeError
            else Map.FromGetattr None) /\
       (k <> "get"%string -> Map.shadowed m' "get" = Map.shadowed m "get") /\
       forall k', k' <> k -> Map.__getitem__ m' k' = Map.__getitem__ m k') /\
  (Map.__getitem__ m k = None -> Map.__delitem__ m k = Map.KeyError m).
Proof.
  intros Hs. pose proof (delitem_synced m k Hs) as Hd.
  unfold Map.__delattr__, Map.__getitem__, Map.shadowed in *.
  split; [intros ->; reflexivity|].
  split; [intros [w ->]; reflexivity|].
  split.
  - intros v Hv. rewrite Hv in Hd. eexists. split; [exact Hd|].
    unfold Map.getattribute, Map.__getattr__, Map.shadowed, Map.synced in *.
    cbn [Map.entries Map.attrs].
    split; [rewrite Hs; reflexivity|].
    split; [apply lookup_delete_eq|]. split; [|split].
    + intros -> ->. rewrite !lookup_delete_eq.
      destruct (delete k (Map.attrs m) !! "get"); reflexivity.
    + intros Hne. rewrite lookup_delete_ne by exact Hne. reflexivity.
    + intros k' Hne. apply lookup_delete_ne. congruence.
  - intros Hn. rewrite Hn in Hd. exact Hd.
Qed.

Lemma Map_delitem_read_witness :
  Map.__delattr__ {| Map.entries := {["a" := 1]}; Map.attrs := {["a" := 1]} |} "b"
  = Map.KeyError {| Map.entries := {["a" := 1]}; Map.attrs := {["a" := 1]} |}.
Proof.
  destruct (Map_delitem_read (fun _ => false) (fun _ => false)
              {| Map.entries := {["a" := 1]}; Map.attrs := {["a" := 1]} |} "b")
    as (Hattr & _ & _ & Hmiss).
  - reflexivity.
  - rewrite Hattr by reflexivity. rewrite Hmiss by reflexivity. reflexivity.
Defined.

(** X5. A Map built from an iterable of pairs that is no dict has the
    pairs in its dict only: a key of it still reads as an attribute,
    through [__getattr__], but deleting it raises [KeyError] after the
    entry has been removed from the dict. *)
Theorem Map_init_pairs {V : Type} (data_attr class_attr : string -> bool)
    (l : list (string * V)) (k : string) (v : V) :
  Map.dict_of_arg (Map.ArgPairs l) !! k = Some v ->
  exists m,
    Map.__init__ [Map.ArgPairs l] ∅ = Ok m /\
    Map.attrs m = ∅ /\
    Map.__getitem__ m k = Some v /\
    (data_attr k = false -> class_attr k = false ->
     Map.getattribute data_attr class_attr m k = Map.FromGetattr (Some v)) /\
    exists m', Map.__delattr__ m k = Map.KeyError m' /\
      Map.__getitem__ m' k = None /\ Map.attrs m' = ∅.
Proof.
  intros Hk. unfold Map.__init__. rewrite lookup_empty.
  eexists. split; [reflexivity|].
  cbn [foldl foldr]. rewrite map_to_list_empty. cbn [Map.set_items foldl].
  cbn [Map.attrs Map.entries].
  assert (He : ((∅ : gmap string V) ∪ (Map.dict_of_arg (Map.ArgPairs l) ∪ ∅)) !! k = Some v).
  { rewrite !lookup_union, lookup_empty, Hk. reflexivity. }
  split; [reflexivity|]. unfold Map.__getitem__. cbn [Map.entries].
  split; [exact He|]. split.
  - intros Hd Hc. unfold Map.getattribute, Map.__getattr__, Map.shadowed.
    cbn [Map.attrs Map.entries].
    rewrite Hd, Hc, !lookup_empty, He. reflexivity.
  - unfold Map.__delattr__, Map.__delitem__, Map.shadowed. cbn [Map.attrs Map.entries].
    rewrite He, !lookup_empty. eexists. split; [reflexivity|].
    cbn [Map.attrs Map.entries]. split; [apply lookup_delete_eq | reflexivity].
Qed.

Lemma Map_init_pairs_witness :
  exists m,
    Map.__init__ [Map.ArgPairs [("a"%string, 1); ("a"%string, 2)]] ∅ = Ok m /\
    Map.attrs m = ∅ /\
    Map.__getitem__ m "a" = Some 2 /\
    (false = false -> false = false ->
     Map.getattribute (fun _ => false) (fun _ => false) m "a" = Map.FromGetattr (Some 2)) /\
    exists m', Map.__delattr__ m "a" = Map.KeyError m' /\
      Map.__getitem__ m' "a" = None /\ Map.attrs m' = ∅.
Proof.
  apply (Map_init_pairs (fun _ => false) (fun _ => false)
           [("a"%string, 1); ("a"%string, 2)] "a" 2).
  vm_compute. reflexivity.
Defined.

(** ** More on the constructor *)

Section InitMore.

Import DopplerFinder.

Lemma f64_of_int_bounds n : 1 <= n -> 1 <= f64_of_int n <= 2 * n.
Proof.
  intros Hn. unfold f64_of_int.
  destruct (Z.leb_spec (Z.log2 n - 52) 0) as [|He]; [lia|].
  set (e := Z.log2 n - 52) in *.
  assert (Hp : 0 < 2 ^ e) by (apply Z.pow_pos_nonneg; lia).
  destruct (Z.log2_spec n ltac:(lia)) as [Hlo _].
  assert (Hpe : 2 ^ e <= 2 ^ Z.log2 n) by (apply Z.pow_le_mono_r; lia).
  pose proof (Z.div_mod n (2 ^ e) ltac:(lia)) as Hdm.
  pose proof (Z.mod_pos_bound n (2 ^ e) Hp) as Hr.
  assert (Hq : 1 <= n / 2 ^ e) by (apply Z.div_le_lower_bound; lia).
  destruct ((2 ^ (e - 1) <? n mod 2 ^ e) ||
            ((n mod 2 ^ e =? 2 ^ (e - 1)) && Z.odd (n / 2 ^ e))); nia.
Qed.

Lemma tsteps_total n : 1 <= n < 2 ^ 64 -> exists c, 0 <= c /\ tsteps n = Ok (2 ^ c).
Proof.
  intros Hn. unfold tsteps, math_floor, np_log2.
  assert (H63 : (n <? - 2 ^ 63) || (2 ^ 64 <=? n) = false).
  { apply orb_false_iff. split; [apply Z.ltb_ge | apply Z.leb_gt]; lia. }
  rewrite H63.
  destruct (Z.eqb_spec n 0); [lia|].
  destruct (Z.ltb_spec n 0); [lia|].
  cbn [bind math_ceil].
  pose proof (f64_of_int_bounds n ltac:(lia)) as Hx.
  pose proof (Z.log2_nonneg (f64_of_int n)) as Hk.
  assert (Hk' : Z.log2 (f64_of_int n) < 65) by (apply Z.log2_lt_pow2; lia).
  unfold int_math_pow2.
  destruct (f64_of_int n =? 2 ^ Z.log2 (f64_of_int n)).
  - destruct (Z.leb_spec 1024 (Z.log2 (f64_of_int n))); [lia|]. eauto.
  - destruct (Z.leb_spec 1024 (Z.log2 (f64_of_int n) + 1)); [lia|].
    exists (Z.log2 (f64_of_int n) + 1). split; [lia | reflexivity].
Qed.

Lemma tsteps_Ok_range n ts : tsteps n = Ok ts -> 1 <= n < 2 ^ 64.
Proof.
  intros H. split; [eapply tsteps_Ok_pos; exact H|].
  revert H. unfold tsteps, math_floor, np_log2.
  destruct (Z.leb_spec (2 ^ 64) n); [|lia].
  rewrite orb_true_r. discriminate.
Qed.

Lemma header_Ok_n_fine_chans a fftlen h :
  header a fftlen = Ok h -> n_fine_chans a <> 0.
Proof.
  intros H H0. unfold header in H. rewrite H0 in H.
  destruct (int_mul_float (n_ints_in_file a) (tsamp a)); discriminate.
Qed.

Lemma drift_indexes_Ok (files : gmap Z (list (list Z))) ts tv di :
  drift_indexes files ts tv = Ok di ->
  exists dia_num lines xs,
    files !! dia_num = Some lines /\
    Np.genfromtxt lines = Ok (Np.Arr2 lines) /\
    Np.row lines (row_offset ts tv) = Ok xs /\
    di = Np.slice0 xs tv.
Proof.
  unfold drift_indexes. intros H.
  apply bind_Ok in H as (v & _ & H).
  apply bind_Ok in H as (dia_num & _ & H).
  destruct (files !! dia_num) as [lines|] eqn:Hf; [|discriminate].
  apply bind_Ok in H as (arr & Harr & H).
  destruct arr as [x|xs0|rows]; try discriminate.
  cbn [Np.getitem_row_slice] in H.
  apply bind_Ok in H as (xs & Hrow & H). injection H as <-.
  assert (rows = lines) as ->.
  { unfold Np.genfromtxt in Harr. destruct lines as [|l1 rest]; [discriminate|].
    destruct (forallb _ rest); [|discriminate].
    destruct rest as [|l2 rest].
    - destruct l1 as [|x [|y l1]]; discriminate.
    - destruct l1 as [|x [|y l1]]; cbn in Harr; congruence. }
  exists dia_num, lines, xs. repeat split; assumption.
Qed.

(** A vector computed for the power of two [2^c] was read from the
    table numbered [c], which loaded as a two-dimensional array. *)
Lemma drift_indexes_Ok_table (files : gmap Z (list (list Z))) c tv di :
  0 <= c ->
  drift_indexes files (2 ^ c) tv = Ok di ->
  c < 64 /\
  exists lines, files !! c = Some lines /\ Np.genfromtxt lines = Ok (Np.Arr2 lines).
Proof.
  intros Hc H.
  destruct (Z.lt_ge_cases c 64) as [Hlt | Hge].
  - split; [exact Hlt|].
    assert (Hl : np_log2 (2 ^ c) = Ok (Log2Fin c true)) by (apply np_log2_pow2; lia).
    unfold drift_indexes in H. rewrite Hl in H. cbn [bind int_of_log2] in H.
    destruct (files !! c) as [lines'|] eqn:Hf'; [|discriminate].
    exists lines'. split; [reflexivity|].
    destruct (Np.genfromtxt lines') as [arr|e] eqn:Harr; [|discriminate].
    cbn [bind] in H. destruct arr as [x|xs0|rows]; try discriminate.
    f_equal. f_equal.
    unfold Np.genfromtxt in Harr. destruct lines' as [|l1 rest]; [discriminate|].
    destruct (forallb _ rest); [|discriminate].
    destruct rest as [|l2 rest].
    + destruct l1 as [|x [|y l1]]; discriminate.
    + destruct l1 as [|x [|y l1]]; cbn in Harr; congruence.
  - unfold drift_indexes in H. rewrite np_log2_pow2_large in H by lia. discriminate.
Qed.

End InitMore.

(** X6. The padded count is computed exactly for [1 <= n_ints_in_file < 2^64]
    and is then a power of two; any other [n_ints_in_file] raises. *)
Theorem tsteps_returns_power_of_two (n : Z) :
  (1 <= n < 2 ^ 64 -> exists c, 0 <= c /\ DopplerFinder.tsteps n = Ok (2 ^ c)) /\
  (~ 1 <= n < 2 ^ 64 -> exists e, DopplerFinder.tsteps n = Raise e).
Proof.
  split; [apply tsteps_total|].
  intros Hn. destruct (DopplerFinder.tsteps n) as [ts|e] eqn:E; [|eauto].
  apply tsteps_Ok_range in E. contradiction.
Qed.

(** X7. A finder is only ever constructed from at least one and fewer than
    [2^64] integrations, a fine-channel count and a coarse-channel count
    that are not zero, and with a padded count [2^c] in its [data_dict]
    for which the drift-index file numbered [c] is present and loads as a
    two-dimensional table. *)
Theorem init_Ok_requires (files : gmap Z (list (list Z)))
    (a : DopplerFinder.args) (self : DopplerFinder.t) :
  DopplerFinder.__init__ files a = Ok self ->
  1 <= DopplerFinder.n_ints_in_file a < 2 ^ 64 /\
  DopplerFinder.n_fine_chans a <> 0 /\
  DopplerFinder.n_coarse_chan a <> 0 /\
  exists (c : Z) (lines : list (list Z)),
    0 <= c < 64 /\
    DataDict.tsteps (DopplerFinder.self_data_dict self) = 2 ^ c /\
    files !! c = Some lines /\
    Np.genfromtxt lines = Ok (Np.Arr2 lines).
Proof.
  intros H.
  apply init_Ok in H as (ts & h & dd & di & Hts & Hh & Hdd & Hdi & _ & Hsd & _).
  pose proof (tsteps_Ok_range _ _ Hts) as Hn.
  split; [exact Hn|].
  split; [eapply header_Ok_n_fine_chans; exact Hh|].
  apply data_dict_Ok in Hdd as (Hnc & _ & _ & _ & Hdts & _).
  split; [exact Hnc|].
  destruct (tsteps_total _ Hn) as (c & Hc & Hts').
  rewrite Hts' in Hts. injection Hts as <-.
  rewrite Hdts in Hdi.
  apply drift_indexes_Ok_table in Hdi as (Hlt & lines & Hf & Hg); [|exact Hc].
  exists c, lines. rewrite Hsd.
  split; [lia|]. split; [exact Hdts|]. split; assumption.
Qed.

Lemma init_Ok_requires_witness :
  exists self,
    DopplerFinder.__init__ Examples.example_files Examples.example_args = Ok self /\
    DopplerFinder.n_fine_chans Examples.example_args <> 0.
Proof.
  assert (E : exists self,
    DopplerFinder.__init__ Examples.example_files Examples.example_args = Ok self)
    by (eexists; vm_compute; reflexivity).
  destruct E as [self E]. exists self. split; [exact E|].
  apply (init_Ok_requires _ _ _ E).
Defined.

(** X8. The drift-index vector of a constructed finder is the beginning of
    one line of a drift-index file, and never has more entries than there
    are integrations. *)
Theorem init_drift_indices_prefix (files : gmap Z (list (list Z)))
    (a : DopplerFinder.args) (self : DopplerFinder.t) :
  DopplerFinder.__init__ files a = Ok self ->
  let di := DataLoader.drift_indices (DopplerFinder.self_dataloader self) in
  (exists dia_num lines xs,
     files !! dia_num = Some lines /\ xs ∈ lines /\ di `prefix_of` xs) /\
  Z.of_nat (length di) <= DopplerFinder.n_ints_in_file a.
Proof.
  intros H di. subst di.
  apply init_Ok in H as (ts & h & dd & di & Hts & _ & Hdd & Hdi & _ & _ & _ & ->).
  apply data_dict_Ok in Hdd as (_ & _ & _ & _ & _ & Htv & _).
  rewrite Htv in Hdi.
  apply drift_indexes_Ok in Hdi as (k & lines & xs & Hf & _ & Hrow & ->).
  apply tsteps_Ok_pos in Hts. cbn [DataLoader.__init__ DataLoader.drift_indices].
  split.
  - exists k, lines, xs. split; [exact Hf|]. split.
    + unfold Np.row in Hrow.
      destruct ((_ <? 0) || _); [discriminate|].
      destruct (lines !! _) as [ys|] eqn:E; [|discriminate].
      injection Hrow as <-. eapply list_elem_of_lookup_2. exact E.
    + unfold Np.slice0. apply prefix_take.
  - rewrite slice0_length_clipped by lia. lia.
Qed.

Lemma init_drift_indices_prefix_witness :
  exists self,
    DopplerFinder.__init__ Examples.example_files Examples.example_args = Ok self /\
    Z.of_nat (length (DataLoader.drift_indices (DopplerFinder.self_dataloader self)))
      <= DopplerFinder.n_ints_in_file Examples.example_args.
Proof.
  assert (E : exists self,
    DopplerFinder.__init__ Examples.example_files Examples.example_args = Ok self)
    by (eexists; vm_compute; reflexivity).
  destruct E as [self E]. exists self. split; [exact E|].
  apply (init_drift_indices_prefix _ _ _ E).
Defined.

(** X9. With up to [2^48] integrations, a header that can be built and a
    coarse-channel count that is not zero, the constructor raises
    [AssertionError] when there is no drift-index file for the padded
    count. *)
Theorem init_missing_table_raises (files : gmap Z (list (list Z)))
    (a : DopplerFinder.args) (ts : Z) (h : Header.t) :
  1 <= DopplerFinder.n_ints_in_file a <= 2 ^ 48 ->
  DopplerFinder.tsteps (DopplerFinder.n_ints_in_file a) = Ok ts ->
  DopplerFinder.header a (DopplerFinder.n_fine_chans a) = Ok h ->
  DopplerFinder.n_coarse_chan a <> 0 ->
  files !! Z.log2 ts = None ->
  DopplerFinder.__init__ files a = Raise AssertionError.
Proof.
  intros Hn Hts Hh Hnc Hf.
  destruct (tsteps_bracket _ Hn) as (k & Hk & Hts' & Hlt & _).
  rewrite Hts' in Hts. injection Hts as <-.
  assert (k < 64).
  { destruct (Z.lt_ge_cases k 64) as [|Hge]; [assumption|].
    assert (2 ^ 64 <= 2 ^ k) by (apply Z.pow_le_mono_r; lia). lia. }
  rewrite Z.log2_pow2 in Hf by lia.
  unfold DopplerFinder.__init__. rewrite Hts', Hh. cbn [bind].
  unfold DopplerFinder.data_dict, floordiv.
  destruct (Z.eqb_spec (DopplerFinder.n_coarse_chan a) 0); [contradiction|].
  cbn [bind DataDict.tsteps DataDict.tsteps_valid].
  unfold DopplerFinder.drift_indexes.
  rewrite np_log2_pow2 by lia. cbn [bind int_of_log2]. rewrite Hf. reflexivity.
Qed.

Lemma init_missing_table_raises_witness :
  DopplerFinder.__init__ Examples.example_files
    (Examples.with_geometry Examples.example_args 1000 0x1.f40020c49ba5ep+9 1 1024 2000 1 false)
  = Raise AssertionError.
Proof.
  eapply (init_missing_table_raises Examples.example_files _ 2048).
  - cbn. lia.
  - reflexivity.
  - vm_compute. reflexivity.
  - cbn. discriminate.
  - reflexivity.
Defined.

(** ** Output paths *)

Section Paths.

Import DopplerFinder.

Lemma after_last_no_sep sep s t' :
  PyStr.after_last sep s = Some t' -> str_contains sep t' = false.
Proof.
  revert t'. induction s as [|c s IH]; intros t' H; [discriminate|].
  cbn in H. destruct (PyStr.after_last sep s) as [u|] eqn:E.
  - injection H as <-. apply IH. reflexivity.
  - destruct (Ascii.eqb c sep); [|discriminate]. injection H as <-.
    clear IH. induction s as [|a s IHs]; [reflexivity|].
    cbn in E. destruct (PyStr.after_last sep s); [discriminate|].
    destruct (Ascii.eqb a sep) eqn:Ea; [discriminate|].
    cbn. rewrite Ea. apply IHs. reflexivity.
Qed.

Lemma after_last_None sep s :
  PyStr.after_last sep s = None -> str_contains sep s = false.
Proof.
  induction s as [|a s IH]; [reflexivity|]. cbn.
  destruct (PyStr.after_last sep s); [discriminate|].
  destruct (Ascii.eqb a sep); [discriminate|]. intros _. apply IH. reflexivity.
Qed.

Lemma split_last_no_sep sep s : str_contains sep (PyStr.split_last sep s) = false.
Proof.
  unfold PyStr.split_last. destruct (PyStr.after_last sep s) as [u|] eqn:E; cbn.
  - eapply after_last_no_sep. exact E.
  - apply after_last_None. exact E.
Qed.

(** Removing occurrences brings in no character. *)
Lemma replace_from_empty_no_char c old s : forall skip,
  str_contains c s = false ->
  str_contains c (PyStr.replace_from old EmptyString skip s) = false.
Proof.
  induction s as [|a s IH]; intros skip H; [reflexivity|].
  cbn in H. apply orb_false_iff in H as [Ha Hs].
  cbn [PyStr.replace_from]. destruct skip as [|k]; [|apply IH; exact Hs].
  destruct (String.prefix old (String a s)).
  - simpl. apply IH. exact Hs.
  - simpl. rewrite Ha. apply IH. exact Hs.
Qed.

Lemma wfilename_no_slash (self : t) : str_contains "/" (wfilename self) = false.
Proof.
  unfold wfilename, PyStr.replace.
  do 2 apply replace_from_empty_no_char. apply split_last_no_sep.
Qed.

Lemma rstrip_all c n : PyStr.rstrip c (str_repeat c n) = EmptyString.
Proof.
  induction n as [|n IHn]; [reflexivity|].
  simpl. rewrite IHn, Ascii.eqb_refl. reflexivity.
Qed.

Lemma rstrip_repeat c s n :
  PyStr.rstrip c (String.append s (str_repeat c n)) = PyStr.rstrip c s.
Proof.
  induction s as [|a s IH].
  - apply rstrip_all.
  - simpl. rewrite IH. reflexivity.
Qed.

(** A string without the first character of [old] holds no occurrence. *)
Lemma replace_from_skip_prefix c old' new stem tail :
  str_contains c stem = false ->
  PyStr.replace_from (String c old') new O (String.append stem tail)
  = String.append stem (PyStr.replace_from (String c old') new O tail).
Proof.
  induction stem as [|a stem IH]; intros H; [reflexivity|].
  cbn in H. apply orb_false_iff in H as [Ha Hs].
  simpl.
  destruct (ascii_dec c a) as [->|_].
  - rewrite Ascii.eqb_refl in Ha. discriminate.
  - rewrite IH by exact Hs. reflexivity.
Qed.

Lemma after_last_append sep dir stem :
  str_contains sep stem = false ->
  PyStr.after_last sep (String.append dir (String sep stem)) = Some stem.
Proof.
  intros Hs. induction dir as [|a dir IH].
  - change (String.append EmptyString (String sep stem)) with (String sep stem).
    cbn [PyStr.after_last]. rewrite Ascii.eqb_refl.
    destruct (PyStr.after_last sep stem) as [u|] eqn:E; [|reflexivity].
    exfalso. clear -E Hs. revert u E.
    induction stem as [|b stem IHs]; intros u E; [discriminate|].
    cbn in Hs. apply orb_false_iff in Hs as [Hb Hs].
    cbn in E. destruct (PyStr.after_last sep stem) as [w|] eqn:E'.
    + eapply IHs; eauto.
    + rewrite Hb in E. discriminate.
  - simpl. rewrite IH. reflexivity.
Qed.

End Paths.

Section PathsMore.

Import DopplerFinder.

Lemma str_contains_append c a b :
  str_contains c (String.append a b) = str_contains c a || str_contains c b.
Proof.
  induction a as [|x a IH]; [reflexivity|].
  simpl. rewrite IH, orb_assoc. reflexivity.
Qed.

Lemma after_last_absent sep s :
  str_contains sep s = false -> PyStr.after_last sep s = None.
Proof.
  induction s as [|a s IH]; [reflexivity|].
  cbn. intros H. apply orb_false_iff in H as [Ha Hs].
  rewrite IH, Ha by exact Hs. reflexivity.
Qed.

Lemma append_empty_r s : String.append s EmptyString = s.
Proof.
  induction s as [|a s IH]; [reflexivity|].
  change (String a (String.append s EmptyString) = String a s). rewrite IH. reflexivity.
Qed.

(** The last part of a path that ends in [stem ++ ext]. *)
Lemma split_last_stem (name stem ext : string) :
  str_contains "/" stem = false -> str_contains "/" ext = false ->
  (name = String.append stem ext \/
   exists dir, name = String.append dir (String "/" (String.append stem ext))) ->
  PyStr.split_last "/" name = String.append stem ext.
Proof.
  intros Hs He Hn.
  assert (Hse : str_contains "/" (String.append stem ext) = false)
    by (rewrite str_contains_append, Hs, He; reflexivity).
  unfold PyStr.split_last. destruct Hn as [-> | [dir ->]].
  - rewrite after_last_absent by exact Hse. reflexivity.
  - rewrite after_last_append by exact Hse. reflexivity.
Qed.

Lemma strip_extensions stem ext :
  str_contains "." stem = false ->
  ext = ".h5"%string \/ ext = ".fil"%string ->
  PyStr.replace ".fil" "" (PyStr.replace ".h5" "" (String.append stem ext)) = stem.
Proof.
  intros Hs He. unfold PyStr.replace.
  rewrite (replace_from_skip_prefix "." "h5" "" stem ext Hs).
  destruct He as [-> | ->].
  - change (PyStr.replace_from ".h5" "" 0 ".h5") with EmptyString.
    rewrite (replace_from_skip_prefix "." "fil" "" stem "" Hs).
    change (PyStr.replace_from ".fil" "" 0 "") with EmptyString.
    rewrite !append_empty_r. reflexivity.
  - change (PyStr.replace_from ".h5" "" 0 ".fil") with ".fil"%string.
    rewrite (replace_from_skip_prefix "." "fil" "" stem ".fil" Hs).
    change (PyStr.replace_from ".fil" "" 0 ".fil") with EmptyString.
    apply append_empty_r.
Qed.

End PathsMore.

Section OutputDirectory.

Import DopplerFinder.

Lemma before_last_absent sep s :
  str_contains sep s = false -> Os.before_last sep s = None.
Proof.
  induction s as [|a s IH]; [reflexivity|].
  cbn. intros H. apply orb_false_iff in H as [Ha Hs].
  rewrite IH, Ha by exact Hs. reflexivity.
Qed.

Lemma before_last_append sep dir name :
  str_contains sep name = false ->
  Os.before_last sep (String.append dir (String sep name)) = Some dir.
Proof.
  intros Hn. induction dir as [|a dir IH].
  - change (String.append EmptyString (String sep name)) with (String sep name).
    cbn [Os.before_last]. rewrite before_last_absent by exact Hn.
    rewrite Ascii.eqb_refl. reflexivity.
  - change (String.append (String a dir) (String sep name))
      with (String a (String.append dir (String sep name))).
    cbn [Os.before_last]. rewrite IH. reflexivity.
Qed.

(** The directory of a path [dir/name]. *)
Lemma parent_in_dir (dir name : string) :
  str_contains "/" name = false ->
  Os.parent (String.append dir (String.append "/" name))
  = match dir with EmptyString => "/"%string | _ => dir end.
Proof.
  intros Hn. unfold Os.parent.
  change (String.append "/" name) with (String "/" name).
  rewrite before_last_append by exact Hn. reflexivity.
Qed.

(** Both output files lie in [out_dir], or in the root when [out_dir]
    holds nothing but slashes. *)
Lemma parent_path_log (self : t) :
  let dir := PyStr.rstrip "/" (self_out_dir self) in
  Os.parent (path_log self) = match dir with EmptyString => "/"%string | _ => dir end /\
  Os.parent (path_dat self) = match dir with EmptyString => "/"%string | _ => dir end.
Proof.
  intros dir. unfold path_log, path_dat. fold dir.
  split; apply parent_in_dir; rewrite str_contains_append, wfilename_no_slash;
    reflexivity.
Qed.

End OutputDirectory.

(** X10. The two output paths differ and lie in one directory: [out_dir]
    without its trailing slashes, or the root when nothing is left of it.
    Where that directory does not exist, [_find_ET_common] raises
    [FileNotFoundError] when it opens the log, whatever turbo_seti's
    writers and search would have done: they are not reached. A call that
    returns has left a log that ends with the completion line. *)
Theorem find_ET_common_files
    (e : DopplerFinder.env) (self : DopplerFinder.t) (fs : Os.fs) :
  let log := DopplerFinder.path_log self in
  let dat := DopplerFinder.path_dat self in
  let dir := PyStr.rstrip "/" (DopplerFinder.self_out_dir self) in
  log <> dat /\
  Os.parent log = match dir with EmptyString => "/"%string | _ => dir end /\
  Os.parent dat = Os.parent log /\
  (fs !! Os.parent log = None -> fs !! log = None -> fs !! dat = None ->
   DopplerFinder._find_ET_common e self fs = Raise FileNotFoundError) /\
  (forall fs' : Os.fs,
     DopplerFinder._find_ET_common e self fs = Ok fs' ->
     exists text : string,
       fs' !! log = Some (Os.File (String.append text (DopplerFinder.completed e)))).
Proof.
  intros log dat dir.
  destruct (parent_path_log self) as [Hpl Hpd]. fold log dat dir in Hpl, Hpd.
  split; [apply path_log_neq_path_dat|].
  split; [exact Hpl|]. split; [rewrite Hpl; exact Hpd|]. split.
  - intros Hdir Hlog Hdat.
    unfold DopplerFinder._find_ET_common, DopplerFinder.remove_if_exists, Os.path_exists.
    fold log dat. rewrite Hlog. cbn [bind]. rewrite Hdat. cbn [bind].
    unfold Os.write_text. rewrite open_for_writing_missing by assumption.
    reflexivity.
  - intros fs' H. unfold DopplerFinder._find_ET_common in H. fold log dat in H.
    apply bind_Ok in H as (s1 & _ & H).
    apply bind_Ok in H as (s2 & _ & H).
    apply bind_Ok in H as (s3 & _ & H).
    apply bind_Ok in H as (s4 & _ & H).
    apply bind_Ok in H as (s5 & _ & H).
    apply bind_Ok in H as (s6 & _ & H).
    apply append_text_Ok in H as ->.
    exists (Os.text_of (s6 !! log)). apply lookup_insert_eq.
Qed.

(** X11. The name the output files are built from never holds a slash:
    whatever directories the input file's name goes through, both output
    files lie in [out_dir] itself. *)
Theorem output_files_in_out_dir (self : DopplerFinder.t) :
  exists w : string,
    str_contains "/" w = false /\
    DopplerFinder.path_log self
      = String.append (PyStr.rstrip "/" (DopplerFinder.self_out_dir self))
          (String.append "/" (String.append w ".log")) /\
    DopplerFinder.path_dat self
      = String.append (PyStr.rstrip "/" (DopplerFinder.self_out_dir self))
          (String.append "/" (String.append w ".dat")).
Proof.
  exists (DopplerFinder.wfilename self).
  split; [apply wfilename_no_slash|]. split; reflexivity.
Qed.

(** X12. Slashes at the end of [out_dir] do not count: two finders for the
    same input file whose output directories differ by trailing slashes
    write to the same two paths. *)
Theorem out_dir_trailing_slashes (self self' : DopplerFinder.t) (n : nat) :
  DopplerFinder.self_filename self' = DopplerFinder.self_filename self ->
  DopplerFinder.self_out_dir self'
    = String.append (DopplerFinder.self_out_dir self) (str_repeat "/" n) ->
  DopplerFinder.path_log self' = DopplerFinder.path_log self /\
  DopplerFinder.path_dat self' = DopplerFinder.path_dat self.
Proof.
  intros Hf Ho.
  unfold DopplerFinder.path_log, DopplerFinder.path_dat, DopplerFinder.wfilename.
  rewrite Hf, Ho, rstrip_repeat. split; reflexivity.
Qed.

Lemma out_dir_trailing_slashes_witness :
  exists self,
    DopplerFinder.__init__ Examples.example_files Examples.example_args = Ok self /\
    DopplerFinder.path_log
      {| DopplerFinder.self_filename := DopplerFinder.self_filename self;
         DopplerFinder.self_out_dir :=
           String.append (DopplerFinder.self_out_dir self) (str_repeat "/" 2);
         DopplerFinder.self_header := DopplerFinder.self_header self;
         DopplerFinder.self_find_doppler_instance :=
           DopplerFinder.self_find_doppler_instance self;
         DopplerFinder.self_data_dict := DopplerFinder.self_data_dict self;
         DopplerFinder.self_dataloader := DopplerFinder.self_dataloader self |}
    = DopplerFinder.path_log self.
Proof.
  assert (E : exists self,
    DopplerFinder.__init__ Examples.example_files Examples.example_args = Ok self)
    by (eexists; vm_compute; reflexivity).
  destruct E as [self E]. exists self. split; [exact E|].
  apply (out_dir_trailing_slashes self _ 2); reflexivity.
Defined.

(** X13. For an input file named [stem.h5] or [stem.fil], alone or after any
    directories, with neither a dot nor a slash in [stem], the output files
    are [stem.log] and [stem.dat] in [out_dir]. *)
Theorem output_paths_of_stem (self : DopplerFinder.t) (stem ext : string) :
  str_contains "." stem = false ->
  str_contains "/" stem = false ->
  ext = ".h5"%string \/ ext = ".fil"%string ->
  (DopplerFinder.self_filename self = String.append stem ext \/
   exists dir, DopplerFinder.self_filename self
               = String.append dir (String "/" (String.append stem ext))) ->
  DopplerFinder.path_log self
    = String.append (PyStr.rstrip "/" (DopplerFinder.self_out_dir self))
        (String.append "/" (String.append stem ".log")) /\
  DopplerFinder.path_dat self
    = String.append (PyStr.rstrip "/" (DopplerFinder.self_out_dir self))
        (String.append "/" (String.append stem ".dat")).
Proof.
  intros Hdot Hsl Hext Hname.
  assert (Hw : DopplerFinder.wfilename self = stem).
  { unfold DopplerFinder.wfilename.
    rewrite (split_last_stem _ stem ext Hsl) by
      (try exact Hname; destruct Hext as [-> | ->]; reflexivity).
    apply strip_extensions; assumption. }
  unfold DopplerFinder.path_log, DopplerFinder.path_dat. rewrite Hw.
  split; reflexivity.
Qed.

Lemma output_paths_of_stem_witness :
  exists self,
    DopplerFinder.__init__ Examples.example_files Examples.example_args = Ok self /\
    DopplerFinder.path_log self
      = String.append (PyStr.rstrip "/" (DopplerFinder.self_out_dir self))
          (String.append "/" (String.append "voyager" ".log")).
Proof.
  assert (E : exists self,
    DopplerFinder.__init__ Examples.example_files Examples.example_args = Ok self /\
    DopplerFinder.self_filename self = "/data/obs/voyager.h5"%string)
    by (eexists; split; [vm_compute; reflexivity | reflexivity]).
  destruct E as (self & E & Hf). exists self. split; [exact E|].
  apply (output_paths_of_stem self "voyager" ".h5").
  - reflexivity.
  - reflexivity.
  - left. reflexivity.
  - right. exists "/data/obs"%string. rewrite Hf. reflexivity.
Defined.

(** ** More on the table and the geometry *)

(** X15. A drift-index file with fewer than two data lines loads as an array
    of fewer than two dimensions, and indexing it by row and column range
    raises [IndexError] whatever the offset is. *)
Theorem drift_indexes_short_table
    (files : gmap Z (list (list Z))) (k tsteps_valid : Z) (lines : list (list Z)) :
  0 <= k < 64 ->
  files !! k = Some lines ->
  (length lines <= 1)%nat ->
  DopplerFinder.drift_indexes files (2 ^ k) tsteps_valid = Raise IndexError.
Proof.
  intros Hk Hf Hl. unfold DopplerFinder.drift_indexes.
  rewrite np_log2_pow2 by exact Hk. cbn [bind int_of_log2]. rewrite Hf.
  destruct lines as [|l1 [|l2 rest]]; [reflexivity | | cbn in Hl; lia].
  destruct l1 as [|x [|y l1]]; reflexivity.
Qed.

Lemma drift_indexes_short_table_witness :
  DopplerFinder.drift_indexes (<[1 := [[0; 1]]]> ∅) (2 ^ 1) 2 = Raise IndexError.
Proof.
  apply (drift_indexes_short_table _ 1 2 [[0; 1]]).
  - lia.
  - reflexivity.
  - cbn. lia.
Defined.

(** X16. With a single coarse channel the geometry of a constructed finder
    is consistent: [fftlen], the header's [NAXIS1] and [tdwidth] are all
    [n_fine_chans], and [tdwidth = fftlen + shoulder_size * tsteps]. *)
Theorem geometry_one_coarse_chan (files : gmap Z (list (list Z)))
    (a : DopplerFinder.args) (self : DopplerFinder.t) :
  DopplerFinder.__init__ files a = Ok self ->
  DopplerFinder.n_coarse_chan a = 1 ->
  let dd := DopplerFinder.self_data_dict self in
  DataDict.fftlen dd = DopplerFinder.n_fine_chans a /\
  Header.NAXIS1 (DataDict.header dd) = DopplerFinder.n_fine_chans a /\
  DataDict.tdwidth dd = DopplerFinder.n_fine_chans a /\
  DataDict.tdwidth dd
    = DataDict.fftlen dd + DataDict.shoulder_size dd * DataDict.tsteps dd.
Proof.
  intros H Hnc dd. subst dd.
  apply init_Ok in H as (ts & h & dd & di & _ & Hh & Hdd & _ & _ & -> & _).
  apply header_Ok in Hh as (ni & nf & _ & _ & _ & _ & _ & Hnax).
  apply data_dict_Ok in Hdd as (_ & Hff & Htd & Hss & _ & _ & Hhd & _).
  rewrite Hhd, Hnax, Htd, Hff, Hss, Hnc, Z.div_1_r.
  repeat split; lia.
Qed.

Lemma geometry_one_coarse_chan_witness :
  exists self,
    DopplerFinder.__init__ Examples.example_files Examples.example_args = Ok self /\
    DataDict.tdwidth (DopplerFinder.self_data_dict self)
    = DataDict.fftlen (DopplerFinder.self_data_dict self)
      + DataDict.shoulder_size (DopplerFinder.self_data_dict self)
        * DataDict.tsteps (DopplerFinder.self_data_dict self).
Proof.
  assert (E : exists self,
    DopplerFinder.__init__ Examples.example_files Examples.example_args = Ok self)
    by (eexists; vm_compute; reflexivity).
  destruct E as [self E]. exists self. split; [exact E|].
  apply (geometry_one_coarse_chan _ _ _ E). reflexivity.
Defined.

(** X17. Up to [2^48] integrations the row offset the constructor computes
    is never negative and lies below half the padded count: the row it
    reads is never one counted from the end of the table. *)
Theorem init_row_offset_in_table (n ts : Z) :
  1 <= n <= 2 ^ 48 ->
  DopplerFinder.tsteps n = Ok ts ->
  0 <= DopplerFinder.row_offset ts n /\
  (2 <= ts -> DopplerFinder.row_offset ts n < ts / 2) /\
  (ts = 1 -> DopplerFinder.row_offset ts n = 0).
Proof.
  intros Hn Hts.
  destruct (init_row_offset_range n ts Hn Hts) as [H0 H1].
  split; [exact H0|]. split; [exact H1|].
  intros ->. destruct (tsteps_bracket n Hn) as (k & Hk & Ht & Hlt & Hle).
  rewrite Ht in Hts. injection Hts as Hts. rewrite Hts in Hle.
  unfold DopplerFinder.row_offset, int_truediv2.
  change (Z.quot 1 2) with 0. lia.
Qed.

Lemma init_row_offset_in_table_witness :
  0 <= DopplerFinder.row_offset 2048 2000 /\
  (2 <= 2048 -> DopplerFinder.row_offset 2048 2000 < 2048 / 2) /\
  (2048 = 1 -> DopplerFinder.row_offset 2048 2000 = 0).
Proof.
  apply (init_row_offset_in_table 2000 2048).
  - lia.
  - reflexivity.
Defined.

(** ** Names, once more *)

Section NamesMore.

Import DopplerFinder.

Lemma replace_no_first_char c old' new s :
  str_contains c s = false ->
  PyStr.replace (String c old') new s = s.
Proof.
  intros H. unfold PyStr.replace.
  rewrite <- (append_empty_r s) at 1.
  rewrite (replace_from_skip_prefix c old' new s EmptyString H).
  apply append_empty_r.
Qed.

End NamesMore.

(** X19. An input name that ends in a slash has an empty last part: the
    output files are then named [.log] and [.dat]. *)
Theorem output_paths_of_directory_name (self : DopplerFinder.t) (dir : string) :
  DopplerFinder.self_filename self = String.append dir "/" ->
  DopplerFinder.wfilename self = EmptyString /\
  DopplerFinder.path_log self
    = String.append (PyStr.rstrip "/" (DopplerFinder.self_out_dir self)) "/.log".
Proof.
  intros Hf.
  assert (Hw : DopplerFinder.wfilename self = EmptyString).
  { unfold DopplerFinder.wfilename, PyStr.split_last. rewrite Hf.
    rewrite (after_last_append "/" dir EmptyString) by reflexivity. reflexivity. }
  split; [exact Hw|]. unfold DopplerFinder.path_log. rewrite Hw. reflexivity.
Qed.

Lemma output_paths_of_directory_name_witness :
  exists self,
    DopplerFinder.__init__ Examples.example_files
      {| DopplerFinder.filename := "/data/obs/";
         DopplerFinder.source_name := "Voyager1";
         DopplerFinder.src_raj := 17; DopplerFinder.src_dej := 12;
         DopplerFinder.tstart := 59000; DopplerFinder.tsamp := 1;
         DopplerFinder.f_start := 1000; DopplerFinder.f_stop := 1001;
         DopplerFinder.n_fine_chans := 1024; DopplerFinder.n_ints_in_file := 16;
         DopplerFinder.log_level_int := 20; DopplerFinder.coarse_chan_num := 0;
         DopplerFinder.n_coarse_chan := 1; DopplerFinder.min_drift := 0;
         DopplerFinder.max_drift := 4; DopplerFinder.snr := 25;
         DopplerFinder.out_dir := "out"; DopplerFinder.flagging := false;
         DopplerFinder.append_output := false; DopplerFinder.blank_dc := true |}
    = Ok self /\
    DopplerFinder.wfilename self = EmptyString.
Proof.
  eexists. split; [vm_compute; reflexivity|].
  apply (output_paths_of_directory_name _ "/data/obs"). reflexivity.
Defined.

(** X20. [.h5] is taken out of the name wherever it stands, not only at its
    end: for a last part [stem.h5tail] with no dot in [stem] and [tail],
    the output files are named after [stem ++ tail]. *)
Theorem extension_removed_anywhere (self : DopplerFinder.t) (stem tail : string) :
  str_contains "." stem = false ->
  str_contains "." tail = false ->
  str_contains "/" stem = false ->
  str_contains "/" tail = false ->
  DopplerFinder.self_filename self = String.append stem (String.append ".h5" tail) ->
  DopplerFinder.wfilename self = String.append stem tail.
Proof.
  intros Hs Ht Hss Hts Hf.
  unfold DopplerFinder.wfilename. rewrite Hf.
  assert (Hno : str_contains "/" (String.append stem (String.append ".h5" tail)) = false).
  { rewrite !str_contains_append, Hss, Hts. reflexivity. }
  unfold PyStr.split_last. rewrite after_last_absent by exact Hno. cbn [default].
  assert (H1 : PyStr.replace ".h5" "" (String.append stem (String.append ".h5" tail))
               = String.append stem tail).
  { unfold PyStr.replace.
    rewrite (replace_from_skip_prefix "." "h5" "" stem _ Hs). f_equal.
    transitivity (PyStr.replace ".h5" "" tail);
      [destruct tail; reflexivity | apply replace_no_first_char; exact Ht]. }
  rewrite H1. apply replace_no_first_char.
  rewrite str_contains_append, Hs, Ht. reflexivity.
Qed.

Lemma extension_removed_anywhere_witness :
  exists self,
    DopplerFinder.__init__ Examples.example_files
      {| DopplerFinder.filename := "obs.h5x";
         DopplerFinder.source_name := "Voyager1";
         DopplerFinder.src_raj := 17; DopplerFinder.src_dej := 12;
         DopplerFinder.tstart := 59000; DopplerFinder.tsamp := 1;
         DopplerFinder.f_start := 1000; DopplerFinder.f_stop := 1001;
         DopplerFinder.n_fine_chans := 1024; DopplerFinder.n_ints_in_file := 16;
         DopplerFinder.log_level_int := 20; DopplerFinder.coarse_chan_num := 0;
         DopplerFinder.n_coarse_chan := 1; DopplerFinder.min_drift := 0;
         DopplerFinder.max_drift := 4; DopplerFinder.snr := 25;
         DopplerFinder.out_dir := "out"; DopplerFinder.flagging := false;
         DopplerFinder.append_output := false; DopplerFinder.blank_dc := true |}
    = Ok self /\
    DopplerFinder.wfilename self = String.append "obs" "x".
Proof.
  eexists. split; [vm_compute; reflexivity|].
  apply (extension_removed_anywhere _ "obs" "x"); reflexivity.
Defined.

(** X21. Up to [2^48] integrations, padding is idempotent and monotone: the
    padded count of a padded count is itself, and more integrations never
    give a smaller padded count. *)
Theorem tsteps_idempotent_monotone (n m t u : Z) :
  1 <= n <= m -> m <= 2 ^ 48 ->
  DopplerFinder.tsteps n = Ok t ->
  DopplerFinder.tsteps m = Ok u ->
  DopplerFinder.tsteps t = Ok t /\ t <= u.
Proof.
  intros Hnm Hm Ht Hu.
  destruct (tsteps_bracket n ltac:(lia)) as (k & Hk & Ht' & Hlt & Hle).
  destruct (tsteps_bracket m ltac:(lia)) as (j & Hj & Hu' & Hlt' & Hle').
  rewrite Ht' in Ht. injection Ht as <-.
  rewrite Hu' in Hu. injection Hu as <-.
  split.
  - assert (k < 64).
    { destruct (Z.lt_ge_cases k 64) as [|Hge]; [assumption|].
      assert (2 ^ 64 <= 2 ^ k) by (apply Z.pow_le_mono_r; lia). lia. }
    unfold DopplerFinder.tsteps, math_floor.
    rewrite np_log2_pow2 by lia. cbn [bind math_ceil]. unfold int_math_pow2.
    destruct (Z.leb_spec 1024 k); [lia | reflexivity].
  - apply (pow2_bracket_least n k j); try assumption. lia.
Qed.

Lemma tsteps_idempotent_monotone_witness :
  DopplerFinder.tsteps 2048 = Ok 2048 /\ 2048 <= 4096.
Proof.
  apply (tsteps_idempotent_monotone 2000 3000 2048 4096).
  - lia.
  - lia.
  - reflexivity.
  - reflexivity.
Defined.
